(** * minify_and_split.py: line filter, marker splitter and orchestrator

    A shallow embedding of [src/minify_and_split.py].  A Python [str] is a
    sequence of Unicode code points: a character is its code point ([N]) and
    a text is a list of them.  The builtin string methods the script calls
    ([split], [strip], [rstrip], [startswith], [endswith], [find], slicing,
    [join]) are written out with Python's semantics; the three functions of
    the script ([minify_content], [split_svg], [main]) follow the source
    line by line. *)

From Stdlib Require Import List Bool Arith ZArith NArith Lia.
From Stdlib Require Ascii String.
Import ListNotations.
Import String.StringSyntax.
Delimit Scope string_scope with string.

Set Implicit Arguments.

(** ** Characters and texts *)

Definition char : Type := N.
Definition text : Type := list char.

Definition char_eqb (a b : char) : bool := N.eqb a b.

Fixpoint text_eqb (s t : text) : bool :=
  match s, t with
  | [], [] => true
  | a :: s', b :: t' => char_eqb a b && text_eqb s' t'
  | _, _ => false
  end.

(** A literal of the source, as the code points of its characters. *)
Fixpoint lit (s : String.string) : text :=
  match s with
  | String.EmptyString => []
  | String.String a s' => Ascii.N_of_ascii a :: lit s'
  end.

Arguments lit s%_string.

Definition newline : char := 10%N.
Definition slash : char := 47%N.
Definition colon : char := 58%N.

(** The line feed as a text, to build multi-line documents. *)
Definition nl : text := [newline].

(** Whitespace as [str.strip()] without argument sees it: the code points
    for which [str.isspace()] holds. *)
Definition is_space (c : char) : bool :=
  ((9 <=? c) && (c <=? 13) || (28 <=? c) && (c <=? 32)
   || (c =? 133) || (c =? 160) || (c =? 5760)
   || (8192 <=? c) && (c <=? 8202)
   || (c =? 8232) || (c =? 8233) || (c =? 8239) || (c =? 8287)
   || (c =? 12288))%N.

(** ** The string methods of Python the script uses *)

Module Py.

(** [s.lstrip()] *)
Fixpoint lstrip (s : text) : text :=
  match s with
  | [] => []
  | c :: s' => if is_space c then lstrip s' else s
  end.

(** [s.rstrip()] *)
Definition rstrip (s : text) : text := rev (lstrip (rev s)).

(** [s.strip()] *)
Definition strip (s : text) : text := rstrip (lstrip s).

(** [s.startswith(p)] *)
Fixpoint startswith (s p : text) {struct p} : bool :=
  match p, s with
  | [], _ => true
  | _ :: _, [] => false
  | a :: p', b :: s' => char_eqb a b && startswith s' p'
  end.

(** [s.endswith(p)] *)
Definition endswith (s p : text) : bool := startswith (rev s) (rev p).

(** [s.split(sep)] for a one-character separator: never an empty list. *)
Fixpoint split (sep : char) (s : text) : list text :=
  match s with
  | [] => [[]]
  | c :: s' =>
      if char_eqb c sep then [] :: split sep s'
      else match split sep s' with
           | [] => [[c]]
           | l :: ls => (c :: l) :: ls
           end
  end.

(** [''.join(ls)] *)
Definition join (ls : list text) : text := concat ls.

(** [len(s)] *)
Definition len (s : text) : Z := Z.of_nat (length s).

(** A slice bound, as Python normalises it: a negative bound counts from
    the end, and the result is clamped to [0 .. len]. *)
Definition bound (s : text) (i : Z) : nat :=
  Z.to_nat (Z.min (len s) (if (i <? 0)%Z then Z.max 0 (len s + i) else i)).

(** [s[:hi]] *)
Definition slice_to (s : text) (hi : Z) : text := firstn (bound s hi) s.

(** [s[lo:]] *)
Definition slice_from (s : text) (lo : Z) : text := skipn (bound s lo) s.

(** [s[lo:hi]] *)
Definition slice (s : text) (lo hi : Z) : text :=
  skipn (bound s lo) (firstn (bound s hi) s).

(** [s[i]], [None] where Python raises [IndexError]. *)
Definition index (s : text) (i : Z) : option char :=
  let j := if (i <? 0)%Z then (len s + i)%Z else i in
  if (j <? 0)%Z then None else nth_error s (Z.to_nat j).

(** [range(n)] *)
Definition range (n : Z) : list Z := map Z.of_nat (seq 0 (Z.to_nat n)).

(** [s.find(sub)]: the lowest index at which [sub] starts in [s], [-1]
    when there is none. *)
Fixpoint find_from (s sub : text) (i : Z) : Z :=
  if startswith s sub then i
  else match s with
       | [] => (-1)%Z
       | _ :: s' => find_from s' sub (i + 1)%Z
       end.

Definition find (s sub : text) : Z := find_from s sub 0%Z.

End Py.

(** ** [minify_content] *)

(** The inner loop of [minify_content]: [for i in range(len(stripped) - 1)],
    the list [idxs] being the indices still to visit.  The result is the value
    of [comment_pos] when the loop ends.  [stripped[i-1]] is read after
    [i > 0] only, so that it never raises. *)
Fixpoint scan_comment (stripped : text) (idxs : list Z) : Z :=
  match idxs with
  | [] => (-1)%Z
  | i :: rest =>
      if text_eqb (Py.slice stripped i (i + 2)%Z) (lit "//") then
        if (0 <? i)%Z
           && match Py.index stripped (i - 1)%Z with
              | Some c => negb (char_eqb c colon)
              | None => false
              end
        then i
        else scan_comment stripped rest
      else scan_comment stripped rest
  end.

Definition comment_pos (stripped : text) : Z :=
  scan_comment stripped (Py.range (Py.len stripped - 1)%Z).

(** The body of the outer loop for one [line]: [None] is [continue], [Some s]
    is [minified_lines.append(s)]. *)
Definition minify_line (line : text) : option text :=
  if text_eqb (Py.strip line) [] then None
  else if Py.startswith (Py.strip line) (lit "<!--")
          && Py.endswith (Py.strip line) (lit "-->") then None
  else
    let stripped := Py.strip line in
    if Py.startswith stripped (lit "//") then None
    else
      let comment_pos := comment_pos stripped in
      let stripped :=
        if negb (comment_pos =? -1)%Z
        then Py.rstrip (Py.slice_to stripped comment_pos)
        else stripped in
      if text_eqb stripped [] then None
      else Some stripped.

(** The outer loop, [minified_lines] being the accumulator. *)
Fixpoint minify_loop (lines : list text) (minified_lines : list text)
  : list text :=
  match lines with
  | [] => minified_lines
  | line :: rest =>
      match minify_line line with
      | None => minify_loop rest minified_lines
      | Some stripped => minify_loop rest (minified_lines ++ [stripped])
      end
  end.

Definition minify_content (content : text) : text :=
  let lines := Py.split newline content in
  Py.join (minify_loop lines []).

(** ** Files and standard output *)

Definition path : Type := String.string.

(** What the script prints, one constructor per [print] of the source.  The
    percentage of [Reduction] is kept as the two sizes it is computed from. *)
Inductive message : Type :=
| ProcessingFile (file_path : path)
| OriginalSize (original_size : Z)
| MarkersNotFound
| SplitParts
| StartPartLength (n : Z)
| EndPartLength (n : Z)
| MinifyingParts
| MinifiedFullSize (minified_size : Z)
| Reduction (minified_size original_size : Z)
| FileNotFound (file_path : path)
| FilesCreated
| StartFile (start_file : path)
| EndFile (end_file : path)
| MinifiedFile (minified_file : path)
| ErrorProcessing.

Inductive event : Type :=
| Output (m : message)
| FileWrite (file : path) (data : text).

(** The world a run acts on: the files, and the events so far, oldest
    first. *)
Record world : Type := World {
  files : path -> option text;
  trace : list event
}.

(** A computation either returns a value or raises an exception. *)
Inductive outcome (A : Type) : Type :=
| Ret (a : A)
| Raise.

Arguments Raise {A}.

Definition M (A : Type) : Type := world -> world * outcome A.

Definition ret {A} (a : A) : M A := fun w => (w, Ret a).

Definition raise {A} : M A := fun w => (w, Raise).

Definition bind {A B} (m : M A) (k : A -> M B) : M B :=
  fun w =>
    match m w with
    | (w', Ret a) => k a w'
    | (w', Raise) => (w', Raise)
    end.

Notation "x <- m ;; k" := (bind m (fun x => k))
  (at level 61, m at next level, right associativity).
Notation "m ;;; k" := (bind m (fun _ => k))
  (at level 61, right associativity).

(** [try: body except Exception: handler] *)
Definition try_except {A} (body handler : M A) : M A :=
  fun w =>
    match body w with
    | (w', Ret a) => (w', Ret a)
    | (w', Raise) => handler w'
    end.

Definition emit (e : event) : M unit :=
  fun w => (World (files w) (trace w ++ [e]), Ret tt).

Definition print (m : message) : M unit := emit (Output m).

(** [file_path.exists()] *)
Definition exists_file (p : path) : M bool :=
  fun w => (w, Ret (match files w p with Some _ => true | None => false end)).

(** [open(p, 'r').read()]: raises when there is no such file. *)
Definition read_file (p : path) : M text :=
  fun w =>
    match files w p with
    | Some content => (w, Ret content)
    | None => (w, Raise)
    end.

Definition update (fs : path -> option text) (p : path) (data : text)
  : path -> option text :=
  fun q => if String.eqb q p then Some data else fs q.

(** [open(p, 'w').write(data)]: the file is created or overwritten. *)
Definition write_file (p : path) (data : text) : M unit :=
  fun w => (World (update (files w) p data) (trace w ++ [FileWrite p data]), Ret tt).

(** The files written by a run, in order. *)
Fixpoint writes (tr : list event) : list (path * text) :=
  match tr with
  | [] => []
  | Output _ :: tr' => writes tr'
  | FileWrite p d :: tr' => (p, d) :: writes tr'
  end.

(** ** [split_svg] *)

Definition start_marker : text := lit "<!-- Dynamic Content Start -->".
Definition end_marker : text := lit "<!-- Dynamic Content End -->".

(** The local variables of [split_svg], as functions of [content]. *)
Definition start_pos (content : text) : Z := Py.find content start_marker.
Definition end_pos (content : text) : Z := Py.find content end_marker.

Definition start_part (content : text) : text :=
  Py.slice_to content (start_pos content).

Definition end_part (content : text) : text :=
  Py.slice_from content (end_pos content + Py.len end_marker)%Z.

(** The three values [split_svg] returns, each a string or [None]. *)
Definition parts : Type := (option text * option text * option text)%type.

Definition split_svg (file_path : path) : M parts :=
  print (ProcessingFile file_path) ;;;
  content <- read_file file_path ;;
  let original_size := Py.len content in
  print (OriginalSize original_size) ;;;
  if (start_pos content =? -1)%Z || (end_pos content =? -1)%Z then
    print MarkersNotFound ;;;
    ret (None, None, None)
  else
    print SplitParts ;;;
    print (StartPartLength (Py.len (start_part content))) ;;;
    print (EndPartLength (Py.len (end_part content))) ;;;
    print MinifyingParts ;;;
    let minified_start := minify_content (start_part content) in
    let minified_end := minify_content (end_part content) in
    let minified_full := minify_content content in
    let minified_size := Py.len minified_full in
    (* [minified_size / original_size] raises ZeroDivisionError on 0 *)
    (if (original_size =? 0)%Z then raise else ret tt) ;;;
    print (MinifiedFullSize minified_size) ;;;
    print (Reduction minified_size original_size) ;;;
    ret (Some minified_start, Some minified_end, Some minified_full).

(** ** [main] *)

Definition input_file : path := "assets/paint.full.svg"%string.
Definition start_file : path := "assets/paint.min.start.svg"%string.
Definition end_file : path := "assets/paint.min.end.svg"%string.
Definition minified_file : path := "assets/paint.min.svg"%string.

(** [f.write(x)] for a value that may be [None]: a [TypeError] then. *)
Definition write_value (p : path) (x : option text) : M unit :=
  match x with
  | Some data => write_file p data
  | None =>
      (* the file is opened, hence truncated, before [write] raises *)
      fun w => (World (update (files w) p []) (trace w ++ [FileWrite p []]), Raise)
  end.

Definition main : M unit :=
  let file_path := input_file in
  found <- exists_file file_path ;;
  if negb found then
    print (FileNotFound file_path)
  else
    try_except
      (r <- split_svg file_path ;;
       let '(start_part, end_part, full_content) := r in
       match start_part, end_part with
       | Some _, Some _ =>
           write_value start_file start_part ;;;
           write_value end_file end_part ;;;
           print FilesCreated ;;;
           print (StartFile start_file) ;;;
           print (EndFile end_file) ;;;
           write_value minified_file full_content ;;;
           print (MinifiedFile minified_file)
       | _, _ => ret tt
       end)
      (print ErrorProcessing).

(** A run of the script on the files [fs]. *)
Definition run (fs : path -> option text) : world * outcome unit :=
  main (World fs []).

(** The file system holding the input file only. *)
Definition only_input (content : text) : path -> option text :=
  fun p => if String.eqb p input_file then Some content else None.

Definition example_doc : text :=
  lit "<!--c-->" ++ nl ++ lit "A" ++ nl
  ++ lit "<!-- Dynamic Content Start -->" ++ nl ++ lit "MID" ++ nl
  ++ lit "<!-- Dynamic Content End -->" ++ nl ++ lit "B // x" ++ nl.

(** ** Specification vocabulary *)

(** [p] is a prefix of [s]; [p] is a suffix of [s]; [m] occurs in [s]. *)
Definition has_prefix (p s : text) : Prop := exists r, s = p ++ r.
Definition has_suffix (p s : text) : Prop := exists r, s = r ++ p.
Definition occurs (m s : text) : Prop := exists a b, s = a ++ m ++ b.

(** [m] occurs in [s] at index [i]; and does so for the first time. *)
Definition occurs_at (m s : text) (i : nat) : Prop :=
  exists a b, s = a ++ m ++ b /\ length a = i.

Definition first_occurrence (m s : text) (i : nat) : Prop :=
  occurs_at m s i /\ forall j, j < i -> ~ occurs_at m s j.

(** A line made of whitespace only. *)
Definition blank (l : text) : bool := forallb is_space l.

(** A trimmed line that is one HTML comment. *)
Definition html_comment (s : text) : Prop :=
  has_prefix (lit "<!--") s /\ has_suffix (lit "-->") s.

(** A [//] starts at index [i] of [s], the character before it exists and
    is not a colon. *)
Definition comment_at (s : text) (i : nat) : Prop :=
  nth_error s i = Some slash /\ nth_error s (S i) = Some slash
  /\ exists c, 0 < i /\ nth_error s (i - 1) = Some c /\ c <> colon.

(** The first such index. *)
Definition first_comment_at (s : text) (i : nat) : Prop :=
  comment_at s i /\ forall j, j < i -> ~ comment_at s j.

(** The test of the inner loop at index [i]. *)
Definition scan_test (stripped : text) (i : Z) : bool :=
  text_eqb (Py.slice stripped i (i + 2)%Z) (lit "//")
  && ((0 <? i)%Z
      && match Py.index stripped (i - 1)%Z with
         | Some c => negb (char_eqb c colon)
         | None => false
         end).

(** What one line contributes to [minified_lines]. *)
Definition kept (line : text) : list text :=
  match minify_line line with
  | None => []
  | Some stripped => [stripped]
  end.

(** The middle section of the document, both markers included: from the
    start of the start marker to the end of the end marker. *)
Definition middle_section (content : text) : text :=
  Py.slice content (start_pos content) (end_pos content + Py.len end_marker)%Z.

(** [s] is [t] with some characters deleted, the others in their order. *)
Inductive subseq : text -> text -> Prop :=
| subseq_nil : subseq [] []
| subseq_skip (c : char) (s t : text) : subseq s t -> subseq s (c :: t)
| subseq_keep (c : char) (s t : text) : subseq s t -> subseq (c :: s) (c :: t).

(** A text that does not begin, or does not end, with whitespace. *)
Definition starts_clean (t : text) : bool :=
  match t with
  | [] => true
  | c :: _ => negb (is_space c)
  end.

Definition ends_clean (t : text) : bool := starts_clean (rev t).

(** ** Equality tests *)

Lemma char_eqb_eq (a b : char) : char_eqb a b = true <-> a = b.
Proof. apply N.eqb_eq. Qed.

Lemma text_eqb_eq (s t : text) : text_eqb s t = true <-> s = t.
Proof.
  revert t; induction s as [|a s IH]; intros [|b t]; simpl;
    try (split; [discriminate | congruence]); [tauto|].
  rewrite andb_true_iff, char_eqb_eq, IH.
  split; [intros [-> ->]; reflexivity | intros E; injection E; auto].
Qed.

Lemma text_eqb_nil (s : text) : text_eqb s [] = false <-> s <> [].
Proof.
  destruct s; simpl; split; congruence.
Qed.

(** ** [startswith], [endswith] and [find] *)

Lemma startswith_spec (s p : text) :
  Py.startswith s p = true <-> has_prefix p s.
Proof.
  revert s; induction p as [|a p IH]; intros s; simpl.
  - split; [intros _; exists s; reflexivity | reflexivity].
  - destruct s as [|b s].
    + split; [discriminate | intros [r E]; discriminate E].
    + rewrite andb_true_iff, char_eqb_eq, IH. split.
      * intros [-> [r ->]]. exists r. reflexivity.
      * intros [r E]. injection E as -> ->. split; [reflexivity|].
        exists r. reflexivity.
Qed.

Lemma endswith_spec (s p : text) :
  Py.endswith s p = true <-> has_suffix p s.
Proof.
  unfold Py.endswith. rewrite startswith_spec. split.
  - intros [r E]. exists (rev r).
    rewrite <- (rev_involutive s), E, rev_app_distr, rev_involutive.
    reflexivity.
  - intros [r ->]. exists (rev r). apply rev_app_distr.
Qed.

Lemma occurs_at_0 (m s : text) : occurs_at m s 0 <-> has_prefix m s.
Proof.
  split.
  - intros (a & b & -> & L). destruct a; [|discriminate]. exists b.
    reflexivity.
  - intros [r ->]. exists [], r. split; reflexivity.
Qed.

Lemma occurs_at_S (m : text) (c : char) (s : text) (i : nat) :
  occurs_at m (c :: s) (S i) <-> occurs_at m s i.
Proof.
  split.
  - intros (a & b & E & L). destruct a as [|c' a]; [discriminate|].
    injection E as -> ->. injection L as L. exists a, b. auto.
  - intros (a & b & -> & L). exists (c :: a), b. simpl. auto.
Qed.

Lemma occurs_at_occurs (m s : text) (i : nat) : occurs_at m s i -> occurs m s.
Proof. intros (a & b & E & _). exists a, b. exact E. Qed.

Lemma occurs_occurs_at (m s : text) : occurs m s -> exists i, occurs_at m s i.
Proof. intros (a & b & E). exists (length a), a, b. auto. Qed.

(** [find] returns [-1] exactly when the text does not occur, and the
    index of its first occurrence otherwise. *)
Lemma find_from_spec (sub s : text) (i : Z) :
  (Py.find_from s sub i = (-1)%Z /\ ~ occurs sub s)
  \/ (exists k, Py.find_from s sub i = (i + Z.of_nat k)%Z
                /\ first_occurrence sub s k).
Proof.
  revert i; induction s as [|c s IH]; intros i; simpl Py.find_from.
  - destruct (Py.startswith [] sub) eqn:E.
    + right. exists 0. split; [lia|]. split.
      * apply occurs_at_0, startswith_spec, E.
      * intros j Hj; lia.
    + left. split; [reflexivity|]. intros Ho.
      destruct (occurs_occurs_at Ho) as [k Hk].
      destruct Hk as (a & b & Es & L). destruct a; [|discriminate].
      assert (has_prefix sub []) by (exists b; exact Es).
      apply startswith_spec in H. congruence.
  - destruct (Py.startswith (c :: s) sub) eqn:E.
    + right. exists 0. split; [lia|]. split.
      * apply occurs_at_0, startswith_spec, E.
      * intros j Hj; lia.
    + destruct (IH (i + 1)%Z) as [[E1 N1] | (k & E1 & F1 & F2)].
      * left. split; [exact E1|]. intros Ho.
        destruct (occurs_occurs_at Ho) as [[|k] Hk].
        -- apply occurs_at_0, startswith_spec in Hk. congruence.
        -- apply occurs_at_S in Hk. apply N1. eapply occurs_at_occurs, Hk.
      * right. exists (S k). split; [lia|]. split.
        -- apply occurs_at_S, F1.
        -- intros [|j] Hj Hn.
           ++ apply occurs_at_0, startswith_spec in Hn. congruence.
           ++ apply occurs_at_S in Hn. apply (F2 j); [lia | exact Hn].
Qed.

Lemma first_occurrence_unique (m s : text) (i j : nat) :
  first_occurrence m s i -> first_occurrence m s j -> i = j.
Proof.
  intros [A1 A2] [B1 B2].
  destruct (Nat.lt_trichotomy i j) as [L | [E | L]]; [|exact E|].
  - destruct (B2 i L A1).
  - destruct (A2 j L B1).
Qed.

Lemma find_absent (sub s : text) :
  Py.find s sub = (-1)%Z <-> ~ occurs sub s.
Proof.
  unfold Py.find.
  destruct (find_from_spec sub s 0) as [[E N] | (k & E & F)].
  - tauto.
  - split; [lia|]. intros N. destruct N.
    eapply occurs_at_occurs, F.
Qed.

Lemma find_first (sub s : text) (k : nat) :
  Py.find s sub = Z.of_nat k <-> first_occurrence sub s k.
Proof.
  unfold Py.find.
  destruct (find_from_spec sub s 0) as [[E N] | (k' & E & F)].
  - split; [lia|]. intros [F _]. destruct N. eapply occurs_at_occurs, F.
  - split.
    + intros E'. assert (k' = k) by lia. subst. exact F.
    + intros F'. rewrite E, (first_occurrence_unique F F'). lia.
Qed.

Lemma find_present (sub s : text) :
  occurs sub s -> exists k, Py.find s sub = Z.of_nat k.
Proof.
  intros Ho. unfold Py.find.
  destruct (find_from_spec sub s 0) as [[E N] | (k & E & F)]; [tauto|].
  exists k. lia.
Qed.

(** ** [lstrip], [rstrip] and [strip] *)

Lemma lstrip_split (s : text) :
  exists ws, s = ws ++ Py.lstrip s /\ forallb is_space ws = true.
Proof.
  induction s as [|c s (ws & E & W)]; simpl.
  - exists []. auto.
  - destruct (is_space c) eqn:Hc.
    + exists (c :: ws). simpl. rewrite Hc, W. split; [congruence | reflexivity].
    + exists []. auto.
Qed.

Lemma rstrip_split (s : text) :
  exists ws, s = Py.rstrip s ++ ws /\ forallb is_space ws = true.
Proof.
  unfold Py.rstrip. destruct (lstrip_split (rev s)) as (ws & E & W).
  exists (rev ws). split.
  - rewrite <- rev_app_distr, <- E, rev_involutive. reflexivity.
  - rewrite forallb_forall in *. intros x Hx. apply W, in_rev, Hx.
Qed.

Lemma strip_split (s : text) :
  exists a b, s = a ++ Py.strip s ++ b
              /\ forallb is_space a = true /\ forallb is_space b = true.
Proof.
  unfold Py.strip.
  destruct (lstrip_split s) as (a & Ea & Wa).
  destruct (rstrip_split (Py.lstrip s)) as (b & Eb & Wb).
  exists a, b. repeat split; try assumption. congruence.
Qed.

Lemma lstrip_blank (s : text) : Py.lstrip s = [] <-> blank s = true.
Proof.
  unfold blank. induction s as [|c s IH]; simpl; [tauto|].
  destruct (is_space c); simpl; [exact IH|]. split; discriminate.
Qed.

Lemma blank_rev (s : text) : blank (rev s) = blank s.
Proof.
  unfold blank. induction s as [|c s IH]; simpl; [reflexivity|].
  rewrite forallb_app, IH. simpl. rewrite andb_true_r. apply andb_comm.
Qed.

Lemma rstrip_blank (s : text) : Py.rstrip s = [] <-> blank s = true.
Proof.
  unfold Py.rstrip. rewrite <- blank_rev, <- lstrip_blank. split.
  - intros E. rewrite <- (rev_involutive (Py.lstrip (rev s))), E. reflexivity.
  - intros ->. reflexivity.
Qed.

Lemma strip_blank (s : text) : Py.strip s = [] <-> blank s = true.
Proof.
  destruct (strip_split s) as (a & b & E & Wa & Wb). split.
  - intros E0. rewrite E0 in E. rewrite E. unfold blank.
    rewrite forallb_app, Wa. exact Wb.
  - intros B. unfold Py.strip. apply rstrip_blank, lstrip_blank.
    assert (Hl : Py.lstrip s = []) by (apply lstrip_blank, B).
    rewrite Hl. reflexivity.
Qed.

Lemma lstrip_length (s : text) : length (Py.lstrip s) <= length s.
Proof.
  destruct (lstrip_split s) as (ws & E & _).
  rewrite E at 2. rewrite length_app. lia.
Qed.

Lemma rstrip_length (s : text) : length (Py.rstrip s) <= length s.
Proof.
  destruct (rstrip_split s) as (ws & E & _).
  rewrite E at 2. rewrite length_app. lia.
Qed.

Lemma strip_length (s : text) : length (Py.strip s) <= length s.
Proof.
  unfold Py.strip. etransitivity; [apply rstrip_length | apply lstrip_length].
Qed.

Lemma occurs_strip (m s : text) : occurs m (Py.strip s) -> occurs m s.
Proof.
  intros (a & b & E). destruct (strip_split s) as (x & y & Es & _).
  exists (x ++ a), (b ++ y). rewrite Es at 1. rewrite E.
  repeat rewrite <- app_assoc. reflexivity.
Qed.

(** ** [split] and [join] *)

Lemma split_not_nil (sep : char) (s : text) : Py.split sep s <> [].
Proof.
  induction s as [|c s IH]; simpl; [discriminate|].
  destruct (char_eqb c sep); [discriminate|].
  destruct (Py.split sep s); discriminate.
Qed.

(** Joining the lines loses one separator per line but the last. *)
Lemma split_length (sep : char) (s : text) :
  length (Py.join (Py.split sep s)) + length (Py.split sep s) = S (length s).
Proof.
  unfold Py.join. induction s as [|c s IH]; simpl; [reflexivity|].
  destruct (char_eqb c sep); simpl; [lia|].
  destruct (Py.split sep s) as [|l ls] eqn:E.
  - destruct (split_not_nil sep s E).
  - simpl in *. lia.
Qed.

(** A text without separator is a single line. *)
Lemma split_single (sep : char) (s : text) :
  ~ In sep s -> Py.split sep s = [s].
Proof.
  induction s as [|c s IH]; simpl; intros N; [reflexivity|].
  destruct (char_eqb c sep) eqn:E.
  - apply char_eqb_eq in E. destruct N. auto.
  - rewrite IH by tauto. reflexivity.
Qed.

(** ** The outer loop of [minify_content] *)

Lemma minify_loop_app (lines acc : list text) :
  minify_loop lines acc = acc ++ flat_map kept lines.
Proof.
  revert acc; induction lines as [|l lines IH]; intros acc; simpl.
  - rewrite app_nil_r. reflexivity.
  - unfold kept at 1. destruct (minify_line l); rewrite IH; simpl.
    + rewrite <- app_assoc. reflexivity.
    + reflexivity.
Qed.

Lemma minify_content_lines (content : text) :
  minify_content content
  = concat (flat_map kept (Py.split newline content)).
Proof.
  unfold minify_content, Py.join. rewrite minify_loop_app. reflexivity.
Qed.

Lemma minify_content_single (s : text) :
  ~ In newline s ->
  minify_content s = match minify_line s with None => [] | Some t => t end.
Proof.
  intros N. rewrite minify_content_lines, split_single by exact N.
  simpl. unfold kept. destruct (minify_line s); simpl;
    rewrite ?app_nil_r; reflexivity.
Qed.

(** ** Slices and indices at non-negative positions *)

Lemma bound_of_nat (s : text) (n : nat) :
  Py.bound s (Z.of_nat n) = Nat.min (length s) n.
Proof.
  unfold Py.bound, Py.len.
  destruct (Z.ltb_spec (Z.of_nat n) 0); lia.
Qed.

Lemma firstn_min (A : Type) (s : list A) (n : nat) :
  firstn (Nat.min (length s) n) s = firstn n s.
Proof.
  destruct (Nat.le_ge_cases n (length s)) as [L | L].
  - rewrite Nat.min_r by exact L. reflexivity.
  - rewrite Nat.min_l by exact L. rewrite !firstn_all2; auto.
Qed.

Lemma skipn_min (A : Type) (s t : list A) (n : nat) :
  length t <= length s -> skipn (Nat.min (length s) n) t = skipn n t.
Proof.
  intros Ht. destruct (Nat.le_ge_cases n (length s)) as [L | L].
  - rewrite Nat.min_r by exact L. reflexivity.
  - rewrite Nat.min_l by exact L. rewrite !skipn_all2; auto; lia.
Qed.

Lemma slice_to_of_nat (s : text) (n : nat) :
  Py.slice_to s (Z.of_nat n) = firstn n s.
Proof. unfold Py.slice_to. rewrite bound_of_nat. apply firstn_min. Qed.

Lemma slice_from_of_nat (s : text) (n : nat) :
  Py.slice_from s (Z.of_nat n) = skipn n s.
Proof.
  unfold Py.slice_from. rewrite bound_of_nat. apply skipn_min. lia.
Qed.

Lemma slice_of_nat (s : text) (lo hi : nat) :
  Py.slice s (Z.of_nat lo) (Z.of_nat hi) = skipn lo (firstn hi s).
Proof.
  unfold Py.slice. rewrite !bound_of_nat, firstn_min.
  apply skipn_min. rewrite length_firstn. lia.
Qed.

Lemma index_of_nat (s : text) (n : nat) :
  Py.index s (Z.of_nat n) = nth_error s n.
Proof.
  unfold Py.index.
  assert (E : (Z.of_nat n <? 0)%Z = false) by (apply Z.ltb_ge; lia).
  rewrite E. cbv zeta. rewrite E, Nat2Z.id. reflexivity.
Qed.

Lemma two_at (A : Type) (s : list A) (i : nat) (a b : A) :
  skipn i (firstn (i + 2) s) = [a; b]
  <-> nth_error s i = Some a /\ nth_error s (S i) = Some b.
Proof.
  revert s; induction i as [|i IH]; intros s.
  - destruct s as [|x [|y s]]; simpl; split;
      try (intros [? ?]); try discriminate; try congruence.
    intros E. injection E as -> ->. auto.
  - destruct s as [|x s]; simpl.
    + split; [discriminate | intros [? _]; discriminate].
    + apply IH.
Qed.

(** The same cut, as the three pieces of the text. *)
Lemma two_at_occurs (s : text) (i : nat) (a b : char) :
  nth_error s i = Some a -> nth_error s (S i) = Some b ->
  s = firstn i s ++ [a; b] ++ skipn (i + 2) s.
Proof.
  intros Ha Hb.
  assert (E : skipn i (firstn (i + 2) s) = [a; b]) by (apply two_at; auto).
  rewrite <- E.
  rewrite <- (firstn_skipn (i + 2) s) at 1.
  rewrite <- (firstn_skipn i (firstn (i + 2) s)) at 1.
  rewrite firstn_firstn, Nat.min_l by lia.
  rewrite <- app_assoc. reflexivity.
Qed.

(** ** The scan for a trailing comment *)

Lemma scan_comment_cons (s : text) (i : Z) (rest : list Z) :
  scan_comment s (i :: rest)
  = if scan_test s i then i else scan_comment s rest.
Proof.
  unfold scan_test. simpl.
  destruct (text_eqb _ _); simpl; [|reflexivity].
  destruct (_ && _); reflexivity.
Qed.

Lemma scan_test_spec (s : text) (i : nat) :
  scan_test s (Z.of_nat i) = true <-> comment_at s i.
Proof.
  unfold scan_test, comment_at.
  replace (Z.of_nat i + 2)%Z with (Z.of_nat (i + 2)) by lia.
  rewrite slice_of_nat, !andb_true_iff, text_eqb_eq.
  change (lit "//") with [slash; slash]. rewrite (@two_at char s i slash slash).
  destruct i as [|i].
  - simpl. split.
    + intros (_ & E & _). discriminate.
    + intros (_ & _ & c & L & _). lia.
  - replace (Z.of_nat (S i) - 1)%Z with (Z.of_nat i) by lia.
    rewrite index_of_nat. replace (S i - 1) with i by lia.
    split.
    + intros ((A & B) & _ & C). repeat split; auto.
      destruct (nth_error s i) as [c|]; [|discriminate].
      exists c. repeat split; [lia|].
      intros ->. discriminate.
    + intros (A & B & c & _ & Ec & Nc). repeat split; auto.
      rewrite Ec. destruct (char_eqb c colon) eqn:E; [|reflexivity].
      apply char_eqb_eq in E. contradiction.
Qed.

Lemma scan_none (s : text) (n a : nat) :
  (forall j, a <= j < a + n -> ~ comment_at s j) ->
  scan_comment s (map Z.of_nat (seq a n)) = (-1)%Z.
Proof.
  revert a; induction n as [|n IH]; intros a H; [reflexivity|].
  simpl seq. simpl map. rewrite scan_comment_cons.
  destruct (scan_test s (Z.of_nat a)) eqn:E.
  - apply scan_test_spec in E. destruct (H a); [lia | exact E].
  - apply IH. intros j Hj. apply H. lia.
Qed.

Lemma scan_first (s : text) (n a i : nat) :
  a <= i < a + n -> comment_at s i ->
  (forall j, a <= j < i -> ~ comment_at s j) ->
  scan_comment s (map Z.of_nat (seq a n)) = Z.of_nat i.
Proof.
  revert a; induction n as [|n IH]; intros a Hi Hc Hf; [lia|].
  simpl seq. simpl map. rewrite scan_comment_cons.
  destruct (scan_test s (Z.of_nat a)) eqn:E.
  - apply scan_test_spec in E.
    destruct (Nat.eq_dec a i) as [-> | Ne]; [reflexivity|].
    destruct (Hf a); [lia | exact E].
  - destruct (Nat.eq_dec a i) as [-> | Ne].
    + apply scan_test_spec in Hc. congruence.
    + apply IH; [lia | exact Hc |]. intros j Hj. apply Hf. lia.
Qed.

Lemma range_len_pred (s : text) :
  Py.range (Py.len s - 1)%Z = map Z.of_nat (seq 0 (length s - 1)).
Proof.
  unfold Py.range, Py.len. f_equal. f_equal. lia.
Qed.

Lemma comment_pos_none (s : text) :
  (forall i, ~ comment_at s i) -> comment_pos s = (-1)%Z.
Proof.
  intros H. unfold comment_pos. rewrite range_len_pred.
  apply scan_none. intros j _. apply H.
Qed.

Lemma comment_at_bound (s : text) (i : nat) :
  comment_at s i -> 0 < i /\ S i < length s.
Proof.
  intros (_ & B & c & L & _). split; [exact L|].
  apply nth_error_Some. congruence.
Qed.

Lemma comment_pos_first (s : text) (i : nat) :
  first_comment_at s i -> comment_pos s = Z.of_nat i.
Proof.
  intros [Hc Hf]. unfold comment_pos. rewrite range_len_pred.
  destruct (comment_at_bound Hc) as [L0 L1].
  apply scan_first; [lia | exact Hc |]. intros j Hj. apply Hf. lia.
Qed.

(** The loop leaves [-1] or the first index of a trailing comment. *)
Lemma comment_pos_cases (s : text) :
  (comment_pos s = (-1)%Z /\ forall i, ~ comment_at s i)
  \/ exists i, comment_pos s = Z.of_nat i /\ first_comment_at s i.
Proof.
  unfold comment_pos. rewrite range_len_pred.
  assert (G : forall n a,
    (scan_comment s (map Z.of_nat (seq a n)) = (-1)%Z
     /\ forall j, a <= j < a + n -> ~ comment_at s j)
    \/ exists i, scan_comment s (map Z.of_nat (seq a n)) = Z.of_nat i
         /\ a <= i /\ comment_at s i
         /\ forall j, a <= j < i -> ~ comment_at s j).
  { induction n as [|n IH]; intros a.
    - left. split; [reflexivity | intros; lia].
    - simpl seq. simpl map. rewrite scan_comment_cons.
      destruct (scan_test s (Z.of_nat a)) eqn:E.
      + right. exists a. apply scan_test_spec in E.
        split; [reflexivity|]. split; [lia|]. split; [exact E|].
        intros; lia.
      + assert (Na : ~ comment_at s a).
        { intros C. apply scan_test_spec in C. congruence. }
        destruct (IH (S a)) as [[E1 N1] | (i & E1 & L & C & F)].
        * left. split; [exact E1|]. intros j Hj.
          destruct (Nat.eq_dec j a) as [-> | Ne]; [exact Na|].
          apply N1. lia.
        * right. exists i.
          split; [exact E1|]. split; [lia|]. split; [exact C|]. intros j Hj.
          destruct (Nat.eq_dec j a) as [-> | Ne]; [exact Na|].
          apply F. lia. }
  destruct (G (length s - 1) 0) as [[E N] | (i & E & L & C & F)].
  - left. split; [exact E|]. intros i C.
    destruct (comment_at_bound C). apply (N i); [lia | exact C].
  - right. exists i. split; [exact E|]. split; [exact C|].
    intros j Hj. apply F. lia.
Qed.

(** ** One line through the filter *)

Lemma html_comment_test (s : text) :
  Py.startswith s (lit "<!--") && Py.endswith s (lit "-->") = true
  <-> html_comment s.
Proof.
  unfold html_comment.
  rewrite andb_true_iff, startswith_spec, endswith_spec. tauto.
Qed.

Lemma not_true_false (b : bool) (P : Prop) :
  (b = true <-> P) -> ~ P -> b = false.
Proof. destruct b; intuition congruence. Qed.

(** The line after the three tests that drop it whole. *)
Lemma minify_line_kept_whole (line : text) :
  Py.strip line <> [] ->
  ~ html_comment (Py.strip line) ->
  ~ has_prefix (lit "//") (Py.strip line) ->
  minify_line line
  = let stripped := Py.strip line in
    let stripped :=
      if negb (comment_pos stripped =? -1)%Z
      then Py.rstrip (Py.slice_to stripped (comment_pos stripped))
      else stripped in
    if text_eqb stripped [] then None else Some stripped.
Proof.
  intros Hne Hh Hp. unfold minify_line.
  rewrite (proj2 (text_eqb_nil _) Hne).
  rewrite (not_true_false (html_comment_test _) Hh).
  rewrite (not_true_false (startswith_spec _ _) Hp).
  reflexivity.
Qed.

Lemma minify_line_keep (line : text) :
  Py.strip line <> [] ->
  ~ html_comment (Py.strip line) ->
  ~ has_prefix (lit "//") (Py.strip line) ->
  (forall i, ~ comment_at (Py.strip line) i) ->
  minify_line line = Some (Py.strip line).
Proof.
  intros Hne Hh Hp Hc. rewrite minify_line_kept_whole by assumption.
  cbv zeta. rewrite (comment_pos_none Hc). simpl.
  rewrite (proj2 (text_eqb_nil _) Hne). reflexivity.
Qed.

Lemma minify_line_cut (line : text) (i : nat) :
  Py.strip line <> [] ->
  ~ html_comment (Py.strip line) ->
  ~ has_prefix (lit "//") (Py.strip line) ->
  first_comment_at (Py.strip line) i ->
  minify_line line
  = let cut := Py.rstrip (firstn i (Py.strip line)) in
    if text_eqb cut [] then None else Some cut.
Proof.
  intros Hne Hh Hp Hc. rewrite minify_line_kept_whole by assumption.
  cbv zeta. rewrite (comment_pos_first Hc), slice_to_of_nat.
  destruct (Z.eqb_spec (Z.of_nat i) (-1)); [lia|]. reflexivity.
Qed.

Lemma lstrip_head (s r : text) (c : char) :
  Py.lstrip s = c :: r -> is_space c = false.
Proof.
  induction s as [|x s IH]; simpl; [discriminate|].
  destruct (is_space x) eqn:Hx; [exact IH|].
  intros E. injection E as <- _. exact Hx.
Qed.

Lemma strip_head (s r : text) (c : char) :
  Py.strip s = c :: r -> is_space c = false.
Proof.
  unfold Py.strip. intros E.
  destruct (rstrip_split (Py.lstrip s)) as (ws & Es & _).
  rewrite E in Es. simpl in Es. apply (lstrip_head _ Es).
Qed.

(** What is left of a trimmed line before a trailing comment is never
    empty: it keeps at least the first character of the line. *)
Lemma cut_not_empty (line : text) (i : nat) :
  comment_at (Py.strip line) i ->
  Py.rstrip (firstn i (Py.strip line)) <> [].
Proof.
  intros C. destruct (comment_at_bound C) as [L0 L1].
  destruct (Py.strip line) as [|c r] eqn:E; [simpl in L1; lia|].
  destruct i as [|i]; [lia|]. simpl firstn. intros B.
  apply rstrip_blank in B. unfold blank in B. simpl in B.
  rewrite (strip_head _ E) in B. discriminate B.
Qed.

Lemma minify_line_cut_kept (line : text) (i : nat) :
  Py.strip line <> [] ->
  ~ html_comment (Py.strip line) ->
  ~ has_prefix (lit "//") (Py.strip line) ->
  first_comment_at (Py.strip line) i ->
  minify_line line = Some (Py.rstrip (firstn i (Py.strip line))).
Proof.
  intros Hne Hh Hp Hc. rewrite (@minify_line_cut line i Hne Hh Hp Hc).
  cbv zeta.
  rewrite (proj2 (text_eqb_nil _) (@cut_not_empty line i (proj1 Hc))).
  reflexivity.
Qed.

Lemma minify_line_blank (line : text) :
  blank line = true -> minify_line line = None.
Proof.
  intros B. apply strip_blank in B. unfold minify_line. rewrite B.
  reflexivity.
Qed.

Lemma minify_line_length (line t : text) :
  minify_line line = Some t -> length t <= length line.
Proof.
  unfold minify_line.
  destruct (text_eqb (Py.strip line) []); [discriminate|].
  destruct (_ && _); [discriminate|].
  destruct (Py.startswith _ _); [discriminate|].
  cbv zeta.
  destruct (negb _).
  - destruct (text_eqb _ _); [discriminate|]. intros E. injection E as <-.
    etransitivity; [apply rstrip_length|]. unfold Py.slice_to.
    rewrite length_firstn.
    etransitivity; [apply Nat.le_min_r | apply strip_length].
  - destruct (text_eqb _ _); [discriminate|]. intros E. injection E as <-.
    apply strip_length.
Qed.

Lemma comment_at_occurs (s : text) (i : nat) :
  comment_at s i -> occurs (lit "//") s.
Proof.
  intros (A & B & _). exists (firstn i s), (skipn (i + 2) s).
  apply (two_at_occurs _ _ A B).
Qed.

Lemma kept_length (lines : list text) :
  length (concat (flat_map kept lines)) <= length (concat lines).
Proof.
  induction lines as [|l lines IH]; simpl; [lia|].
  rewrite concat_app, !length_app. unfold kept at 1.
  destruct (minify_line l) as [t|] eqn:E; simpl.
  - apply minify_line_length in E. rewrite app_nil_r. lia.
  - lia.
Qed.

(** ** The two markers *)

Lemma occurs_at_firstn (m s : text) (i : nat) :
  occurs_at m s i ->
  exists b, s = firstn i s ++ m ++ b /\ skipn (i + length m) s = b.
Proof.
  intros (a & b & -> & <-). exists b.
  rewrite firstn_app, Nat.sub_diag, firstn_all, firstn_O, app_nil_r.
  split; [reflexivity|].
  rewrite app_assoc, skipn_app, skipn_all2 by (rewrite length_app; lia).
  rewrite length_app, Nat.sub_diag. reflexivity.
Qed.

Lemma start_part_found (content : text) (a : nat) :
  start_pos content = Z.of_nat a -> start_part content = firstn a content.
Proof. intros E. unfold start_part. rewrite E. apply slice_to_of_nat. Qed.

Lemma end_part_found (content : text) (b : nat) :
  end_pos content = Z.of_nat b ->
  end_part content = skipn (b + length end_marker) content.
Proof.
  intros E. unfold end_part, Py.len. rewrite E, <- Nat2Z.inj_add.
  apply slice_from_of_nat.
Qed.

Lemma middle_section_found (content : text) (a b : nat) :
  start_pos content = Z.of_nat a -> end_pos content = Z.of_nat b ->
  middle_section content
  = skipn a (firstn (b + length end_marker) content).
Proof.
  intros Ea Eb. unfold middle_section, Py.len.
  rewrite Ea, Eb, <- Nat2Z.inj_add. apply slice_of_nat.
Qed.

Lemma find_cases (sub s : text) :
  (Py.find s sub = (-1)%Z /\ ~ occurs sub s)
  \/ exists k, Py.find s sub = Z.of_nat k /\ first_occurrence sub s k.
Proof.
  unfold Py.find.
  destruct (find_from_spec sub s 0) as [H | (k & E & F)]; [left; exact H|].
  right. exists k. split; [lia | exact F].
Qed.

(** The test of [split_svg] fails exactly when both markers occur. *)
Lemma markers_test (content : text) :
  (start_pos content =? -1)%Z || (end_pos content =? -1)%Z = false
  <-> occurs start_marker content /\ occurs end_marker content.
Proof.
  unfold start_pos, end_pos. rewrite orb_false_iff, !Z.eqb_neq.
  destruct (find_cases start_marker content) as [[E1 N1] | (k1 & E1 & F1)];
    destruct (find_cases end_marker content) as [[E2 N2] | (k2 & E2 & F2)];
    rewrite E1, E2.
  - split; [intros [? _]; congruence | tauto].
  - split; [intros [? _]; congruence | tauto].
  - split; [intros [_ ?]; congruence | tauto].
  - split; [|lia]. intros _. split.
    + eapply occurs_at_occurs, F1.
    + eapply occurs_at_occurs, F2.
Qed.

Lemma start_marker_length : length start_marker = 30.
Proof. reflexivity. Qed.

Lemma end_marker_length : length end_marker = 28.
Proof. reflexivity. Qed.

(** No character of the start marker after its first is the one the end
    marker begins with. *)
Lemma end_marker_not_inside :
  forallb (fun k => match nth_error start_marker k, nth_error end_marker 0 with
                    | Some c, Some d => negb (char_eqb c d)
                    | _, _ => true
                    end) (seq 1 29) = true.
Proof. reflexivity. Qed.

(** An end marker that starts after the start marker starts after its
    end: the two do not overlap. *)
Lemma markers_apart (content : text) (a b : nat) :
  occurs_at start_marker content a -> occurs_at end_marker content b ->
  a < b -> a + length start_marker <= b.
Proof.
  intros (x & r & E1 & La) (y & r2 & E2 & Lb) Lt.
  rewrite start_marker_length.
  destruct (Nat.le_gt_cases (a + 30) b) as [L | L]; [exact L|].
  exfalso.
  assert (Hk : In (b - a) (seq 1 29)) by (apply in_seq; lia).
  pose proof (proj1 (forallb_forall _ _) end_marker_not_inside _ Hk) as T.
  cbv beta in T.
  assert (Hb : nth_error content b = nth_error end_marker 0).
  { rewrite E2, nth_error_app2 by lia.
    rewrite Lb, Nat.sub_diag. rewrite nth_error_app1; [reflexivity|].
    rewrite end_marker_length. lia. }
  assert (Ha : nth_error content b = nth_error start_marker (b - a)).
  { rewrite E1, nth_error_app2 by lia. rewrite La.
    apply nth_error_app1. rewrite start_marker_length. lia. }
  rewrite <- Ha, <- Hb in T.
  destruct (nth_error content b) as [c|] eqn:Ec.
  - assert (Hcc : char_eqb c c = true) by (apply char_eqb_eq; reflexivity).
    rewrite Hcc in T. discriminate.
  - rewrite E2, nth_error_app2 in Ec by lia.
    rewrite Lb, Nat.sub_diag in Ec. discriminate.
Qed.

(** With the start marker first, the document is the prefix, the start
    marker, what lies between, the end marker and the suffix. *)
Lemma markers_in_order (content : text) (a b : nat) :
  occurs_at start_marker content a -> occurs_at end_marker content b ->
  a < b ->
  exists inner,
    content = firstn a content ++ start_marker ++ inner ++ end_marker
              ++ skipn (b + length end_marker) content
    /\ length inner = b - (a + length start_marker).
Proof.
  intros Ha Hb Lt. pose proof (markers_apart Ha Hb Lt) as L.
  destruct (occurs_at_firstn Ha) as (r & Ea & _).
  destruct (occurs_at_firstn Hb) as (r2 & Eb & Es).
  assert (La : length (firstn a content) = a).
  { destruct Ha as (x & y & -> & <-).
    rewrite firstn_app, Nat.sub_diag, firstn_all, firstn_O, app_nil_r.
    reflexivity. }
  exists (firstn (b - (a + length start_marker)) r).
  assert (Er : r = firstn (b - (a + length start_marker)) r
                   ++ end_marker ++ r2
               /\ b - (a + length start_marker) <= length r).
  { assert (E : skipn (a + length start_marker) content = r).
    { rewrite Ea at 1. rewrite app_assoc, skipn_app.
      rewrite skipn_all2 by (rewrite length_app; lia).
      rewrite length_app, La, Nat.sub_diag. reflexivity. }
    assert (Lr : b + length end_marker <= length content).
    { destruct Hb as (x & y & -> & <-). rewrite !length_app. lia. }
    assert (Lc : length content = a + length start_marker + length r).
    { rewrite Ea at 1. rewrite !length_app, La. lia. }
    split; [|lia].
    rewrite <- (firstn_skipn (b - (a + length start_marker)) r) at 1.
    f_equal.
    rewrite <- E at 1. rewrite skipn_skipn.
    replace (b - (a + length start_marker) + (a + length start_marker))
      with b by lia.
    assert (Esk : skipn b content = end_marker ++ r2).
    { rewrite Eb at 1. rewrite skipn_app.
      assert (Lfb : length (firstn b content) = b).
      { rewrite length_firstn. lia. }
      rewrite skipn_all2 by lia. rewrite Lfb, Nat.sub_diag. reflexivity. }
    exact Esk. }
  destruct Er as [Er Lr]. split.
  - rewrite Es. rewrite <- Er. exact Ea.
  - rewrite length_firstn. lia.
Qed.

(** ** Runs of [split_svg] and [main] *)

Lemma split_svg_missing (file_path : path) (w : world) (content : text) :
  files w file_path = Some content ->
  ~ (occurs start_marker content /\ occurs end_marker content) ->
  split_svg file_path w
  = (World (files w)
       (trace w ++ [Output (ProcessingFile file_path);
                    Output (OriginalSize (Py.len content));
                    Output MarkersNotFound]),
     Ret (None, None, None)).
Proof.
  intros Hf Hm.
  assert (T : (start_pos content =? -1)%Z || (end_pos content =? -1)%Z = true).
  { destruct (_ || _) eqn:E; [reflexivity|].
    apply markers_test in E. contradiction. }
  unfold split_svg, bind, print, emit, read_file, ret. simpl.
  rewrite Hf, T. simpl. rewrite <- !app_assoc. reflexivity.
Qed.

Lemma split_svg_found (file_path : path) (w : world) (content : text) :
  files w file_path = Some content ->
  occurs start_marker content -> occurs end_marker content ->
  split_svg file_path w
  = (World (files w)
       (trace w ++ [Output (ProcessingFile file_path);
                    Output (OriginalSize (Py.len content));
                    Output SplitParts;
                    Output (StartPartLength (Py.len (start_part content)));
                    Output (EndPartLength (Py.len (end_part content)));
                    Output MinifyingParts;
                    Output (MinifiedFullSize
                             (Py.len (minify_content content)));
                    Output (Reduction (Py.len (minify_content content))
                             (Py.len content))]),
     Ret (Some (minify_content (start_part content)),
          Some (minify_content (end_part content)),
          Some (minify_content content))).
Proof.
  intros Hf Hs He.
  assert (T : (start_pos content =? -1)%Z || (end_pos content =? -1)%Z = false)
    by (apply markers_test; auto).
  assert (Z0 : (Py.len content =? 0)%Z = false).
  { apply Z.eqb_neq. destruct Hs as (a & b & ->). unfold Py.len.
    rewrite !length_app, start_marker_length. lia. }
  unfold split_svg, bind, print, emit, read_file, ret, raise. simpl.
  rewrite Hf, T. simpl. rewrite Z0. simpl. rewrite <- !app_assoc.
  reflexivity.
Qed.

Lemma main_missing (fs : path -> option text) (content : text) :
  fs input_file = Some content ->
  ~ (occurs start_marker content /\ occurs end_marker content) ->
  run fs
  = (World fs [Output (ProcessingFile input_file);
               Output (OriginalSize (Py.len content));
               Output MarkersNotFound],
     Ret tt).
Proof.
  intros Hf Hm. unfold run, main, bind, exists_file, try_except. simpl.
  rewrite Hf. simpl.
  rewrite (@split_svg_missing input_file (World fs []) content Hf Hm).
  reflexivity.
Qed.

Lemma occurs_at_length (m s : text) (i : nat) :
  occurs_at m s i -> length (firstn i s) = i.
Proof.
  intros (a & b & -> & <-).
  rewrite firstn_app, Nat.sub_diag, firstn_all, firstn_O, app_nil_r.
  reflexivity.
Qed.

(** What the splitter finds when both markers occur. *)
Lemma split_found (content : text) :
  occurs start_marker content -> occurs end_marker content ->
  exists a b,
    first_occurrence start_marker content a
    /\ first_occurrence end_marker content b
    /\ start_pos content = Z.of_nat a /\ end_pos content = Z.of_nat b
    /\ start_part content = firstn a content
    /\ end_part content = skipn (b + length end_marker) content.
Proof.
  intros Hs He. unfold start_pos, end_pos.
  destruct (find_cases start_marker content) as [[_ N] | (a & Ea & Fa)];
    [contradiction|].
  destruct (find_cases end_marker content) as [[_ N] | (b & Eb & Fb)];
    [contradiction|].
  exists a, b. repeat split; try assumption; try apply Fa; try apply Fb.
  - apply start_part_found, Ea.
  - apply end_part_found, Eb.
Qed.

Lemma not_occurs_by_find (sub s : text) :
  Py.find s sub = (-1)%Z -> ~ occurs sub s.
Proof. apply find_absent. Qed.

(** * The properties of the specification *)

(** ** The example scenario *)

(** C1, as the code has it: on the example document the minified start
    fragment is [A], the minified end fragment is [B], and the minified
    full content is [AMIDB]: each marker line is a full-line HTML comment,
    so the full-content pass drops it like any other.  The three files of
    the run hold these three texts. *)
Theorem example_scenario :
  minify_content (start_part example_doc) = lit "A"
  /\ minify_content (end_part example_doc) = lit "B"
  /\ minify_content example_doc = lit "AMIDB"
  /\ writes (trace (fst (run (only_input example_doc))))
     = [(start_file, lit "A"); (end_file, lit "B");
        (minified_file, lit "AMIDB")].
Proof. repeat split; vm_compute; reflexivity. Qed.

(** The full-content pass does not keep the marker lines. *)
Lemma example_scenario_markers_kept_fails :
  ~ (minify_content (start_part example_doc) = lit "A"
     /\ minify_content (end_part example_doc) = lit "B"
     /\ minify_content example_doc
        = lit "A<!-- Dynamic Content Start -->MID<!-- Dynamic Content End -->B").
Proof.
  intros (_ & _ & E). vm_compute in E. discriminate E.
Qed.

(** ** The marker splitter *)

(** C2: when both markers occur, the prefix is the document before the
    first occurrence of the start marker and the suffix is the document
    after the first occurrence of the end marker, that occurrence being
    the first one in the whole document; [split_svg] returns the two,
    minified, with the minified document. *)
Theorem split_at_first_occurrences (content : text) :
  occurs start_marker content -> occurs end_marker content ->
  (exists rest, content = start_part content ++ start_marker ++ rest)
  /\ first_occurrence start_marker content (length (start_part content))
  /\ (exists before,
        content = before ++ end_marker ++ end_part content
        /\ first_occurrence end_marker content (length before))
  /\ forall file_path w,
       files w file_path = Some content ->
       snd (split_svg file_path w)
       = Ret (Some (minify_content (start_part content)),
              Some (minify_content (end_part content)),
              Some (minify_content content)).
Proof.
  intros Hs He.
  destruct (split_found Hs He) as (a & b & Fa & Fb & _ & _ & Ps & Pe).
  destruct (occurs_at_firstn (proj1 Fa)) as (r & Ea & _).
  destruct (occurs_at_firstn (proj1 Fb)) as (r2 & Eb & Er2).
  rewrite Ps, Pe. split; [|split; [|split]].
  - exists r. exact Ea.
  - rewrite (occurs_at_length (proj1 Fa)). exact Fa.
  - exists (firstn b content). rewrite Er2. split; [exact Eb|].
    rewrite (occurs_at_length (proj1 Fb)). exact Fb.
  - intros p w Hf. rewrite (split_svg_found p w Hf Hs He), Ps, Pe.
    reflexivity.
Qed.

Lemma example_first_start : first_occurrence start_marker example_doc 11.
Proof. apply find_first. reflexivity. Qed.

Lemma example_first_end : first_occurrence end_marker example_doc 46.
Proof. apply find_first. reflexivity. Qed.

Lemma example_has_start : occurs start_marker example_doc.
Proof. eapply occurs_at_occurs, example_first_start. Qed.

Lemma example_has_end : occurs end_marker example_doc.
Proof. eapply occurs_at_occurs, example_first_end. Qed.

(** The search for the end marker is not anchored after the start marker:
    with an end marker before the start marker, the suffix starts after
    that first end marker and holds the start marker. *)
Example end_marker_search_not_anchored :
  let content := lit "x" ++ end_marker ++ lit "y" ++ start_marker
                 ++ lit "z" ++ end_marker ++ lit "w" in
  start_part content = lit "x" ++ end_marker ++ lit "y"
  /\ end_part content
     = lit "y" ++ start_marker ++ lit "z" ++ end_marker ++ lit "w".
Proof. split; reflexivity. Qed.

Lemma split_at_first_occurrences_witness :
  occurs start_marker example_doc /\ occurs end_marker example_doc
  /\ first_occurrence start_marker example_doc
       (length (start_part example_doc))
  /\ snd (split_svg input_file (World (only_input example_doc) []))
     = Ret (Some (minify_content (start_part example_doc)),
            Some (minify_content (end_part example_doc)),
            Some (minify_content example_doc)).
Proof.
  split; [exact example_has_start|]. split; [exact example_has_end|].
  destruct (split_at_first_occurrences example_has_start example_has_end)
    as (_ & F & _ & R).
  split; [exact F|]. apply R. reflexivity.
Defined.

(** C3: when the first start marker comes before the first end marker,
    the prefix, the middle section (both markers included) and the suffix
    put together are the document again; the middle section begins with the
    start marker and ends with the end marker. *)
Theorem split_round_trip (content : text) (a b : nat) :
  first_occurrence start_marker content a ->
  first_occurrence end_marker content b ->
  a < b ->
  start_part content ++ middle_section content ++ end_part content = content
  /\ has_prefix start_marker (middle_section content)
  /\ has_suffix end_marker (middle_section content).
Proof.
  intros Fa Fb Lt.
  pose proof (proj2 (find_first _ _ _) Fa) as Ea.
  pose proof (proj2 (find_first _ _ _) Fb) as Eb.
  rewrite (@start_part_found content a Ea), (@end_part_found content b Eb),
    (@middle_section_found content a b Ea Eb).
  destruct (markers_in_order (proj1 Fa) (proj1 Fb) Lt) as (inner & E & Li).
  pose proof (occurs_at_length (proj1 Fa)) as La.
  set (x := firstn a content) in *.
  set (y := skipn (b + length end_marker) content) in *.
  assert (Em : skipn a (firstn (b + length end_marker) content)
               = start_marker ++ inner ++ end_marker).
  { pose proof (markers_apart (proj1 Fa) (proj1 Fb) Lt) as L.
    rewrite E.
    replace (x ++ start_marker ++ inner ++ end_marker ++ y)
      with ((x ++ start_marker ++ inner ++ end_marker) ++ y)
      by (repeat rewrite <- app_assoc; reflexivity).
    rewrite firstn_app.
    assert (Ll : length (x ++ start_marker ++ inner ++ end_marker)
                 = b + length end_marker)
      by (rewrite !length_app; lia).
    rewrite Ll, Nat.sub_diag, firstn_O, app_nil_r.
    rewrite firstn_all2 by lia.
    rewrite skipn_app, skipn_all2 by lia.
    rewrite La, Nat.sub_diag. reflexivity. }
  rewrite Em. split; [|split].
  - symmetry. etransitivity; [exact E|].
    repeat rewrite <- app_assoc. reflexivity.
  - exists (inner ++ end_marker). reflexivity.
  - exists (start_marker ++ inner). rewrite <- app_assoc. reflexivity.
Qed.

Lemma split_round_trip_witness :
  first_occurrence start_marker example_doc 11
  /\ first_occurrence end_marker example_doc 46
  /\ 11 < 46
  /\ start_part example_doc ++ middle_section example_doc
     ++ end_part example_doc = example_doc.
Proof.
  split; [exact example_first_start|]. split; [exact example_first_end|].
  split; [lia|].
  apply (split_round_trip example_first_start example_first_end). lia.
Defined.

(** C4: when a marker is missing, [split_svg] reports the error and
    returns no fragment, and the run ends without writing any file: its
    events are three lines of output and the files are as they were. *)
Theorem missing_marker_aborts (fs : path -> option text) (content : text) :
  fs input_file = Some content ->
  ~ occurs start_marker content \/ ~ occurs end_marker content ->
  split_svg input_file (World fs [])
  = (World fs [Output (ProcessingFile input_file);
               Output (OriginalSize (Py.len content));
               Output MarkersNotFound],
     Ret (None, None, None))
  /\ snd (run fs) = Ret tt
  /\ In (Output MarkersNotFound) (trace (fst (run fs)))
  /\ writes (trace (fst (run fs))) = []
  /\ files (fst (run fs)) = fs.
Proof.
  intros Hf Hm.
  assert (Hn : ~ (occurs start_marker content /\ occurs end_marker content))
    by tauto.
  split.
  - apply (@split_svg_missing input_file (World fs []) content Hf Hn).
  - rewrite (main_missing fs Hf Hn). simpl. auto 6.
Qed.

Lemma missing_marker_aborts_witness :
  only_input (lit "<svg></svg>") input_file = Some (lit "<svg></svg>")
  /\ writes (trace (fst (run (only_input (lit "<svg></svg>"))))) = [].
Proof.
  split; [reflexivity|].
  apply (@missing_marker_aborts (only_input (lit "<svg></svg>"))
           (lit "<svg></svg>")); [reflexivity|].
  left. apply not_occurs_by_find. reflexivity.
Defined.

(** C10: when both markers occur, the start marker does not occur in the
    prefix. *)
Theorem prefix_without_start_marker (content : text) :
  occurs start_marker content -> occurs end_marker content ->
  ~ occurs start_marker (start_part content).
Proof.
  intros Hs He (x & y & E).
  destruct (split_found Hs He) as (a & b & Fa & _ & _ & _ & Ps & _).
  destruct (occurs_at_firstn (proj1 Fa)) as (r & Ea & _).
  pose proof (occurs_at_length (proj1 Fa)) as La.
  rewrite <- Ps in Ea, La. rewrite E in Ea.
  apply (proj2 Fa (length x)).
  - rewrite <- La, E, !length_app, start_marker_length. lia.
  - exists x, (y ++ start_marker ++ r). split; [|reflexivity].
    rewrite Ea. repeat rewrite <- app_assoc. reflexivity.
Qed.

Lemma prefix_without_start_marker_witness :
  occurs start_marker example_doc /\ occurs end_marker example_doc
  /\ ~ occurs start_marker (start_part example_doc).
Proof.
  split; [exact example_has_start|]. split; [exact example_has_end|].
  exact (prefix_without_start_marker example_has_start example_has_end).
Defined.

(** ** The line filter *)

(** C5: a line whose trimmed form is not empty, does not start with [//]
    and is not one HTML comment is cut at the first [//] that has a
    character before it other than a colon, and trailing whitespace is
    trimmed from what is left, the line being dropped if nothing is left;
    without such a [//] the trimmed line is kept as it is.  The index
    found is one at which a character follows.  The four example lines
    come out as [foo], unchanged, dropped and dropped. *)
Theorem trailing_comment_truncation (line : text) :
  Py.strip line <> [] ->
  ~ has_prefix (lit "//") (Py.strip line) ->
  ~ html_comment (Py.strip line) ->
  (forall i, first_comment_at (Py.strip line) i ->
     minify_line line
     = let cut := Py.rstrip (firstn i (Py.strip line)) in
       if text_eqb cut [] then None else Some cut)
  /\ ((forall i, ~ comment_at (Py.strip line) i) ->
      minify_line line = Some (Py.strip line))
  /\ (comment_pos (Py.strip line) < Py.len (Py.strip line) - 1)%Z
  /\ minify_content (lit "foo // bar") = lit "foo"
  /\ minify_content (lit "http://example.com") = lit "http://example.com"
  /\ (minify_line (lit "// comment") = None
      /\ minify_content (lit "// comment") = [])
  /\ (minify_line (lit "<!-- note -->") = None
      /\ minify_content (lit "<!-- note -->") = []).
Proof.
  intros Hne Hp Hh. split; [|split; [|split]].
  - intros i Hi. apply minify_line_cut; assumption.
  - intros Hc. apply minify_line_keep; assumption.
  - assert (L : (0 < Py.len (Py.strip line))%Z).
    { unfold Py.len. destruct (Py.strip line); [congruence | simpl; lia]. }
    destruct (comment_pos_cases (Py.strip line)) as [[E _] | (i & E & C & _)].
    + lia.
    + destruct (comment_at_bound C). unfold Py.len in *. lia.
  - repeat split; vm_compute; reflexivity.
Qed.

Lemma trailing_comment_truncation_witness :
  Py.strip (lit "  foo // bar ") <> []
  /\ first_comment_at (Py.strip (lit "  foo // bar ")) 4
  /\ minify_line (lit "  foo // bar ") = Some (lit "foo").
Proof.
  assert (F : first_comment_at (Py.strip (lit "  foo // bar ")) 4).
  { split.
    - apply scan_test_spec. reflexivity.
    - intros j Hj C. apply scan_test_spec in C.
      do 4 (destruct j as [|j]; [discriminate C|]). lia. }
  split; [discriminate|]. split; [exact F|].
  destruct (@trailing_comment_truncation (lit "  foo // bar ")) as (Cut & _).
  - discriminate.
  - intros H. apply startswith_spec in H. discriminate H.
  - intros H. apply html_comment_test in H. discriminate H.
  - exact (Cut 4 F).
Defined.

(** C6: when no line is blank, none contains [//] and none is, once
    trimmed, one HTML comment, the minified text is the trimmed lines one
    after the other, in order, with nothing between them. *)
Theorem plain_lines_concatenated (content : text) :
  (forall l, In l (Py.split newline content) ->
     blank l = false /\ ~ occurs (lit "//") l
     /\ ~ html_comment (Py.strip l)) ->
  minify_content content = concat (map Py.strip (Py.split newline content)).
Proof.
  intros H. rewrite minify_content_lines. f_equal.
  induction (Py.split newline content) as [|l lines IH]; [reflexivity|].
  simpl. rewrite IH by (intros l' Hl'; apply H; right; exact Hl').
  destruct (H l (or_introl eq_refl)) as (B & O & Hh).
  unfold kept. rewrite minify_line_keep; [reflexivity | | exact Hh | |].
  - intros E. apply strip_blank in E. congruence.
  - intros [r E]. apply O, occurs_strip. exists [], r. exact E.
  - intros i C. apply O, occurs_strip. apply (comment_at_occurs C).
Qed.

Lemma plain_lines_concatenated_witness :
  minify_content (lit " <g> " ++ nl ++ lit "http:/x" ++ nl ++ lit "</g>")
  = lit "<g>http:/x</g>".
Proof.
  apply (@plain_lines_concatenated
           (lit " <g> " ++ nl ++ lit "http:/x" ++ nl ++ lit "</g>")).
  intros l Hl. vm_compute in Hl.
  destruct Hl as [<- | [<- | [<- | []]]];
    (split; [reflexivity|]; split;
     [apply not_occurs_by_find; reflexivity
     |intros H; apply html_comment_test in H; discriminate H]).
Defined.

(** C7: a one-line document without leading or trailing whitespace, in
    which every [//] comes right after a colon and which is not one HTML
    comment, is returned unchanged; minifying it twice is minifying it
    once. *)
Theorem minified_line_unchanged (s : text) :
  ~ In newline s ->
  Py.strip s = s ->
  (forall i, nth_error s i = Some slash -> nth_error s (S i) = Some slash ->
     0 < i /\ nth_error s (i - 1) = Some colon) ->
  ~ html_comment s ->
  minify_content s = s
  /\ minify_content (minify_content s) = minify_content s.
Proof.
  intros Hn Hs Hc Hh.
  assert (E : minify_content s = s).
  { destruct s as [|c s']; [reflexivity|]. set (s := c :: s') in *.
    rewrite minify_content_single by exact Hn.
    rewrite minify_line_keep; rewrite ?Hs; try assumption.
    - reflexivity.
    - discriminate.
    - intros [r Er]. destruct (Hc 0) as [L _]; try (rewrite Er; reflexivity).
      lia.
    - intros i (A & B & x & _ & Ex & Nx).
      destruct (Hc i A B) as [_ Ec]. congruence. }
  split; [exact E|]. rewrite E. exact E.
Qed.

Lemma minified_line_unchanged_witness :
  Py.strip (lit "a://b") = lit "a://b"
  /\ minify_content (lit "a://b") = lit "a://b".
Proof.
  split; [reflexivity|].
  apply (@minified_line_unchanged (lit "a://b")).
  - intros H. vm_compute in H. intuition discriminate.
  - reflexivity.
  - intros i A B.
    do 5 (destruct i as [|i];
          [first [discriminate A | discriminate B
                 | split; [lia | reflexivity]] |]).
    destruct i; discriminate A.
  - intros H. apply html_comment_test in H. discriminate H.
Defined.

(** C8: a document whose lines are all whitespace, the empty document
    among them, minifies to the empty text. *)
Theorem blank_document_minifies_to_empty (content : text) :
  (forall l, In l (Py.split newline content) -> blank l = true) ->
  minify_content content = [].
Proof.
  intros H. rewrite minify_content_lines.
  induction (Py.split newline content) as [|l lines IH]; [reflexivity|].
  simpl. unfold kept at 1.
  rewrite (minify_line_blank l (H l (or_introl eq_refl))). simpl.
  apply IH. intros l' Hl'. apply H. right. exact Hl'.
Qed.

Lemma blank_document_minifies_to_empty_witness :
  minify_content (lit "  " ++ nl ++ [9%N] ++ nl) = [].
Proof.
  apply (@blank_document_minifies_to_empty (lit "  " ++ nl ++ [9%N] ++ nl)).
  intros l Hl. vm_compute in Hl.
  destruct Hl as [<- | [<- | [<- | []]]]; reflexivity.
Defined.

(** C9: the minified text is never longer than the text. *)
Theorem minify_never_longer (content : text) :
  length (minify_content content) <= length content.
Proof.
  rewrite minify_content_lines.
  pose proof (kept_length (Py.split newline content)) as K.
  pose proof (split_length newline content) as L. unfold Py.join in L.
  assert (0 < length (Py.split newline content)).
  { destruct (Py.split newline content) eqn:E; [|simpl; lia].
    destruct (split_not_nil newline content E). }
  lia.
Qed.

(** * Further properties of the code *)

(** ** [minify_content], line by line *)

Lemma split_app (sep : char) (a b : text) :
  Py.split sep (a ++ sep :: b) = Py.split sep a ++ Py.split sep b.
Proof.
  induction a as [|c a IH]; simpl.
  - assert (E : char_eqb sep sep = true) by (apply char_eqb_eq; reflexivity).
    rewrite E. reflexivity.
  - destruct (char_eqb c sep); [rewrite IH; reflexivity|].
    rewrite IH. destruct (Py.split sep a) as [|l ls] eqn:E.
    + destruct (split_not_nil sep a E).
    + reflexivity.
Qed.

Lemma split_no_sep (sep : char) (s l : text) :
  In l (Py.split sep s) -> ~ In sep l.
Proof.
  revert l; induction s as [|c s IH]; simpl; intros l Hl.
  - destruct Hl as [<- | []]. intros [].
  - destruct (char_eqb c sep) eqn:E.
    + destruct Hl as [<- | Hl]; [intros [] | apply IH, Hl].
    + destruct (Py.split sep s) as [|l0 ls] eqn:Es.
      * destruct (split_not_nil sep s Es).
      * destruct Hl as [<- | Hl].
        -- intros [-> | H].
           ++ assert (char_eqb sep sep = true)
                by (apply char_eqb_eq; reflexivity).
              congruence.
           ++ apply (IH l0); [left; reflexivity | exact H].
        -- apply IH. right. exact Hl.
Qed.

(** A kept line is the beginning of the trimmed line. *)
Lemma minify_line_prefix (line t : text) :
  minify_line line = Some t -> has_prefix t (Py.strip line).
Proof.
  unfold minify_line.
  destruct (text_eqb (Py.strip line) []); [discriminate|].
  destruct (_ && _); [discriminate|].
  destruct (Py.startswith _ _); [discriminate|].
  cbv zeta. destruct (negb _).
  - destruct (text_eqb _ _); [discriminate|]. intros E. injection E as <-.
    destruct (rstrip_split (Py.slice_to (Py.strip line)
                              (comment_pos (Py.strip line)))) as (ws & E & _).
    unfold Py.slice_to in *.
    set (n := Py.bound _ _) in *.
    exists (ws ++ skipn n (Py.strip line)).
    rewrite app_assoc, <- E. symmetry. apply firstn_skipn.
  - destruct (text_eqb _ _); [discriminate|]. intros E. injection E as <-.
    exists []. rewrite app_nil_r. reflexivity.
Qed.

Lemma minify_line_occurs (line t : text) :
  minify_line line = Some t -> occurs t line.
Proof.
  intros E. apply occurs_strip.
  destruct (@minify_line_prefix line t E) as [r Er]. exists [], r. exact Er.
Qed.

Lemma subseq_refl (s : text) : subseq s s.
Proof. induction s; constructor; assumption. Qed.

Lemma subseq_nil_l (t : text) : subseq [] t.
Proof. induction t; constructor; assumption. Qed.

Lemma subseq_app (s1 t1 s2 t2 : text) :
  subseq s1 t1 -> subseq s2 t2 -> subseq (s1 ++ s2) (t1 ++ t2).
Proof.
  intros H1 H2. induction H1; simpl; try constructor; assumption.
Qed.

Lemma subseq_trans (s t u : text) :
  subseq s t -> subseq t u -> subseq s u.
Proof.
  intros H1 H2. revert s H1.
  induction H2 as [|c t u H2 IH|c t u H2 IH]; intros s H1.
  - exact H1.
  - constructor. apply IH, H1.
  - inversion H1; subst; constructor; apply IH; assumption.
Qed.

Lemma subseq_occurs (m s : text) : occurs m s -> subseq m s.
Proof.
  intros (a & b & ->).
  change m with ([] ++ m) at 1. apply subseq_app; [apply subseq_nil_l|].
  rewrite <- (app_nil_r m) at 1.
  apply subseq_app; [apply subseq_refl | apply subseq_nil_l].
Qed.

Lemma subseq_join_split (sep : char) (s : text) :
  subseq (Py.join (Py.split sep s)) s.
Proof.
  unfold Py.join. induction s as [|c s IH]; simpl; [constructor|].
  destruct (char_eqb c sep); simpl; [apply subseq_skip; exact IH|].
  destruct (Py.split sep s) as [|l ls] eqn:E.
  - destruct (split_not_nil sep s E).
  - simpl in *. apply subseq_keep. exact IH.
Qed.

Lemma subseq_kept (lines : list text) :
  subseq (concat (flat_map kept lines)) (concat lines).
Proof.
  induction lines as [|l lines IH]; simpl; [constructor|].
  rewrite concat_app. apply subseq_app; [|exact IH].
  unfold kept. destruct (minify_line l) as [t|] eqn:E; simpl.
  - rewrite app_nil_r. apply subseq_occurs. apply (@minify_line_occurs l t E).
  - apply subseq_nil_l.
Qed.

Lemma subseq_In (s t : text) (c : char) : subseq s t -> In c s -> In c t.
Proof.
  intros H. induction H; simpl; intuition.
Qed.

Lemma minify_content_join (a b : text) :
  minify_content (a ++ nl ++ b) = minify_content a ++ minify_content b.
Proof.
  rewrite !minify_content_lines. unfold nl. simpl app.
  rewrite split_app, flat_map_app, concat_app. reflexivity.
Qed.

(** X1: minifying two texts joined by a line feed is minifying each and
    putting the results together: the filter works line by line. *)
Theorem minify_content_app (a b : text) :
  minify_content (a ++ nl ++ b) = minify_content a ++ minify_content b.
Proof.
  rewrite !minify_content_lines.
  change (a ++ nl ++ b) with (a ++ newline :: b).
  rewrite split_app, flat_map_app. apply concat_app.
Qed.

(** X2: the minified text holds no line feed. *)
Theorem minify_content_one_line (content : text) :
  ~ In newline (minify_content content).
Proof.
  rewrite minify_content_lines. intros H.
  apply in_concat in H. destruct H as (t & Ht & Hn).
  apply in_flat_map in Ht. destruct Ht as (l & Hl & Hk).
  unfold kept in Hk. destruct (minify_line l) as [t'|] eqn:E; [|destruct Hk].
  destruct Hk as [<- | []].
  apply (@split_no_sep newline content l Hl).
  apply (@subseq_In t' l newline); [|exact Hn].
  apply subseq_occurs. apply (@minify_line_occurs l t' E).
Qed.

(** X3: the minified text is the text with characters deleted: nothing is
    added, reordered or repeated. *)
Theorem minify_content_subseq (content : text) :
  subseq (minify_content content) content.
Proof.
  rewrite minify_content_lines.
  eapply subseq_trans; [apply subseq_kept | apply subseq_join_split].
Qed.

(** ** What a kept line looks like *)

Lemma starts_clean_lstrip (s : text) : starts_clean (Py.lstrip s) = true.
Proof.
  induction s as [|c s IH]; simpl; [reflexivity|].
  destruct (is_space c) eqn:E; [exact IH|]. simpl. rewrite E. reflexivity.
Qed.

Lemma ends_clean_rstrip (s : text) : ends_clean (Py.rstrip s) = true.
Proof.
  unfold ends_clean, Py.rstrip. rewrite rev_involutive.
  apply starts_clean_lstrip.
Qed.

Lemma starts_clean_prefix (t z : text) :
  has_prefix t z -> starts_clean z = true -> starts_clean t = true.
Proof.
  intros [r ->]. destruct t; [reflexivity | exact (fun H => H)].
Qed.

Lemma rstrip_prefix (s : text) : has_prefix (Py.rstrip s) s.
Proof. destruct (rstrip_split s) as (ws & E & _). exists ws. exact E. Qed.

Lemma starts_clean_strip (s : text) : starts_clean (Py.strip s) = true.
Proof.
  unfold Py.strip.
  apply (starts_clean_prefix (rstrip_prefix _)), starts_clean_lstrip.
Qed.

Lemma ends_clean_strip (s : text) : ends_clean (Py.strip s) = true.
Proof. apply ends_clean_rstrip. Qed.

Lemma lstrip_clean (s : text) : starts_clean s = true -> Py.lstrip s = s.
Proof.
  destruct s as [|c s]; [reflexivity|]. simpl.
  destruct (is_space c); [discriminate | reflexivity].
Qed.

Lemma strip_clean (s : text) :
  starts_clean s = true -> ends_clean s = true -> Py.strip s = s.
Proof.
  intros Hs He. unfold Py.strip, Py.rstrip.
  rewrite (lstrip_clean _ Hs), (lstrip_clean _ He). apply rev_involutive.
Qed.

Lemma starts_clean_app (l r : text) :
  l <> [] -> starts_clean (l ++ r) = starts_clean l.
Proof. destruct l; [congruence | reflexivity]. Qed.

Lemma ends_clean_app (l r : text) :
  r <> [] -> ends_clean (l ++ r) = ends_clean r.
Proof.
  intros Hr. unfold ends_clean. rewrite rev_app_distr.
  apply starts_clean_app. intros E. apply Hr.
  rewrite <- (rev_involutive r), E. reflexivity.
Qed.

(** A line is kept only after the three tests that drop it have failed. *)
Lemma minify_line_inv (line t : text) :
  minify_line line = Some t ->
  Py.strip line <> [] /\ ~ html_comment (Py.strip line)
  /\ ~ has_prefix (lit "//") (Py.strip line).
Proof.
  unfold minify_line.
  destruct (text_eqb (Py.strip line) []) eqn:E1; [discriminate|].
  destruct (_ && _) eqn:E2; [discriminate|].
  destruct (Py.startswith (Py.strip line) (lit "//")) eqn:E3;
    [discriminate|].
  intros _. split; [apply text_eqb_nil, E1|]. split.
  - intros H. apply html_comment_test in H. congruence.
  - intros H. apply startswith_spec in H. congruence.
Qed.

Lemma minify_line_clean (line t : text) :
  minify_line line = Some t ->
  t <> [] /\ starts_clean t = true /\ ends_clean t = true.
Proof.
  intros E. pose proof (@minify_line_prefix line t E) as P.
  split; [|split].
  - destruct (@minify_line_inv line t E) as (Hne & Hh & Hp).
    rewrite (@minify_line_kept_whole line Hne Hh Hp) in E. cbv zeta in E.
    destruct (text_eqb _ []) eqn:T; [discriminate|].
    injection E as <-. apply text_eqb_nil, T.
  - apply (starts_clean_prefix P), starts_clean_strip.
  - destruct (@minify_line_inv line t E) as (Hne & Hh & Hp).
    rewrite (@minify_line_kept_whole line Hne Hh Hp) in E. cbv zeta in E.
    destruct (negb _).
    + destruct (text_eqb _ []); [discriminate|]. injection E as <-.
      apply ends_clean_rstrip.
    + destruct (text_eqb _ []); [discriminate|]. injection E as <-.
      apply ends_clean_strip.
Qed.

Lemma prefix_nth (t s : text) (k : nat) :
  has_prefix t s -> k < length t -> nth_error t k = nth_error s k.
Proof.
  intros [r ->] L. symmetry. apply nth_error_app1, L.
Qed.

Lemma comment_at_prefix (t s : text) (j : nat) :
  has_prefix t s -> comment_at t j -> comment_at s j.
Proof.
  intros P C. destruct (comment_at_bound C) as [L0 L1].
  destruct C as (A & B & c & _ & Ec & Nc).
  rewrite (@prefix_nth t s j P) in A by lia.
  rewrite (@prefix_nth t s (S j) P) in B by lia.
  rewrite (@prefix_nth t s (j - 1) P) in Ec by lia.
  split; [exact A|]. split; [exact B|]. exists c. auto.
Qed.

Lemma concat_clean (ls : list text) :
  (forall t, In t ls ->
     t <> [] /\ starts_clean t = true /\ ends_clean t = true) ->
  starts_clean (concat ls) = true /\ ends_clean (concat ls) = true.
Proof.
  induction ls as [|l ls IH]; intros H; [split; reflexivity|].
  simpl. destruct (H l (or_introl eq_refl)) as (Hne & Hs & He).
  destruct IH as [IHs IHe]; [intros t Ht; apply H; right; exact Ht|].
  split.
  - rewrite starts_clean_app by exact Hne. exact Hs.
  - destruct (concat ls) as [|c r] eqn:E.
    + rewrite app_nil_r. exact He.
    + rewrite ends_clean_app by discriminate. exact IHe.
Qed.

(** X4: a line that is kept is not empty, has no whitespace at either end,
    and is the beginning of the trimmed source line. *)
Theorem kept_line_trimmed (line t : text) :
  minify_line line = Some t ->
  t <> [] /\ Py.strip t = t /\ has_prefix t (Py.strip line).
Proof.
  intros E. destruct (@minify_line_clean line t E) as (Hne & Hs & He).
  split; [exact Hne|]. split.
  - apply strip_clean; assumption.
  - apply (@minify_line_prefix line t E).
Qed.

Lemma kept_line_trimmed_witness :
  minify_line (lit "  x = 1;  // one ") = Some (lit "x = 1;")
  /\ Py.strip (lit "x = 1;") = lit "x = 1;".
Proof.
  split; [reflexivity|].
  apply (@kept_line_trimmed (lit "  x = 1;  // one ") (lit "x = 1;")).
  reflexivity.
Defined.

(** X5: a line that is kept does not start with [//], and no [//] with a
    character other than a colon before it is left in it. *)
Theorem kept_line_no_comment (line t : text) :
  minify_line line = Some t ->
  ~ has_prefix (lit "//") t /\ forall j, ~ comment_at t j.
Proof.
  intros E. pose proof (@minify_line_prefix line t E) as P.
  destruct (@minify_line_inv line t E) as (Hne & Hh & Hp).
  split.
  - intros [r Er]. apply Hp. destruct P as [r' Er'].
    exists (r ++ r'). rewrite Er', Er, <- app_assoc. reflexivity.
  - intros j C.
    destruct (comment_pos_cases (Py.strip line)) as [[_ N] | (i & _ & F)].
    + apply (N j), (comment_at_prefix P C).
    + rewrite (@minify_line_cut_kept line i Hne Hh Hp F) in E.
      injection E as <-.
      destruct (comment_at_bound C) as [_ L].
      pose proof (rstrip_length (firstn i (Py.strip line))) as L1.
      rewrite length_firstn in L1.
      apply (proj2 F j); [lia|]. apply (comment_at_prefix P C).
Qed.

Lemma kept_line_no_comment_witness :
  minify_line (lit "a // b // c") = Some (lit "a")
  /\ forall j, ~ comment_at (lit "a") j.
Proof.
  split; [reflexivity|].
  apply (@kept_line_no_comment (lit "a // b // c") (lit "a")).
  reflexivity.
Defined.

(** X6: the minified text has no whitespace at either end. *)
Theorem minify_content_trimmed (content : text) :
  Py.strip (minify_content content) = minify_content content.
Proof.
  rewrite minify_content_lines.
  destruct (@concat_clean (flat_map kept (Py.split newline content)))
    as [Hs He].
  - intros t Ht. apply in_flat_map in Ht. destruct Ht as (l & _ & Hk).
    unfold kept in Hk. destruct (minify_line l) as [t'|] eqn:E; [|destruct Hk].
    destruct Hk as [<- | []]. apply (@minify_line_clean l t' E).
  - apply strip_clean; assumption.
Qed.

(** ** The fragments and the full text *)

Lemma firstn_app_exact (A : Type) (x r : list A) :
  firstn (length x) (x ++ r) = x.
Proof.
  rewrite firstn_app, Nat.sub_diag, firstn_all, firstn_O, app_nil_r.
  reflexivity.
Qed.

Lemma skipn_app_exact (A : Type) (x r : list A) :
  skipn (length x) (x ++ r) = r.
Proof.
  rewrite skipn_app, skipn_all, Nat.sub_diag. reflexivity.
Qed.

Lemma minify_content_nil : minify_content [] = [].
Proof. reflexivity. Qed.

Lemma minify_content_start_marker : minify_content start_marker = [].
Proof. reflexivity. Qed.

Lemma minify_content_end_marker : minify_content end_marker = [].
Proof. reflexivity. Qed.

(** X7: when each marker stands on a line of its own, the minified full
    text is the minified start fragment, the minified text between the
    markers and the minified end fragment, one after the other. *)
Theorem full_is_fragments_around_middle (content before inner after : text) :
  content = before ++ nl ++ start_marker ++ nl ++ inner ++ nl
            ++ end_marker ++ nl ++ after ->
  first_occurrence start_marker content (length (before ++ nl)) ->
  first_occurrence end_marker content
    (length (before ++ nl ++ start_marker ++ nl ++ inner ++ nl)) ->
  start_part content = before ++ nl
  /\ end_part content = nl ++ after
  /\ minify_content content
     = minify_content (start_part content) ++ minify_content inner
       ++ minify_content (end_part content).
Proof.
  intros Ec Fa Fb.
  pose proof (proj2 (find_first _ _ _) Fa) as Ea.
  pose proof (proj2 (find_first _ _ _) Fb) as Eb.
  assert (Ps : start_part content = before ++ nl).
  { rewrite (@start_part_found content _ Ea). rewrite Ec at 1.
    rewrite app_assoc. apply firstn_app_exact. }
  assert (Pe : end_part content = nl ++ after).
  { rewrite (@end_part_found content _ Eb). rewrite <- length_app.
    rewrite Ec at 1.
    replace (before ++ nl ++ start_marker ++ nl ++ inner ++ nl
             ++ end_marker ++ nl ++ after)
      with (((before ++ nl ++ start_marker ++ nl ++ inner ++ nl)
             ++ end_marker) ++ nl ++ after)
      by (repeat rewrite <- app_assoc; reflexivity).
    apply skipn_app_exact. }
  split; [exact Ps|]. split; [exact Pe|].
  rewrite Ps, Pe, Ec.
  rewrite !minify_content_join.
  rewrite minify_content_start_marker, minify_content_end_marker.
  rewrite <- (app_nil_r (before ++ nl)), <- app_assoc.
  change (nl ++ after) with ([] ++ nl ++ after).
  rewrite !minify_content_join, minify_content_nil.
  simpl. rewrite app_nil_r. reflexivity.
Qed.

Lemma full_is_fragments_around_middle_witness :
  minify_content example_doc
  = minify_content (start_part example_doc) ++ minify_content (lit "MID")
    ++ minify_content (end_part example_doc).
Proof.
  apply (@full_is_fragments_around_middle example_doc
           (lit "<!--c-->" ++ nl ++ lit "A") (lit "MID")
           (lit "B // x" ++ nl)).
  - reflexivity.
  - apply find_first. reflexivity.
  - apply find_first. reflexivity.
Defined.

(** No character of the end marker after its first is the one the start
    marker begins with. *)
Lemma start_marker_not_inside :
  forallb (fun k => match nth_error end_marker k, nth_error start_marker 0 with
                    | Some c, Some d => negb (char_eqb c d)
                    | _, _ => true
                    end) (seq 1 27) = true.
Proof. reflexivity. Qed.

Lemma markers_apart_rev (content : text) (a b : nat) :
  occurs_at start_marker content a -> occurs_at end_marker content b ->
  b < a -> b + length end_marker <= a.
Proof.
  intros (x & r & E1 & La) (y & r2 & E2 & Lb) Lt.
  rewrite end_marker_length.
  destruct (Nat.le_gt_cases (b + 28) a) as [L | L]; [exact L|].
  exfalso.
  assert (Hk : In (a - b) (seq 1 27)) by (apply in_seq; lia).
  pose proof (proj1 (forallb_forall _ _) start_marker_not_inside _ Hk) as T.
  cbv beta in T.
  assert (Ha : nth_error content a = nth_error start_marker 0).
  { rewrite E1, nth_error_app2 by lia.
    rewrite La, Nat.sub_diag. rewrite nth_error_app1; [reflexivity|].
    rewrite start_marker_length. lia. }
  assert (Hb : nth_error content a = nth_error end_marker (a - b)).
  { rewrite E2, nth_error_app2 by lia. rewrite Lb.
    apply nth_error_app1. rewrite end_marker_length. lia. }
  rewrite <- Ha, <- Hb in T.
  destruct (nth_error content a) as [c|] eqn:Ec.
  - assert (Hcc : char_eqb c c = true) by (apply char_eqb_eq; reflexivity).
    rewrite Hcc in T. discriminate.
  - rewrite E1, nth_error_app2 in Ec by lia.
    rewrite La, Nat.sub_diag in Ec. discriminate.
Qed.

(** X8: markers in the wrong order are not rejected.  When the first end
    marker comes before the first start marker the split succeeds, the
    prefix holds the end marker, the suffix holds the start marker, and the
    two fragments together are at least as long as the document. *)
Theorem reversed_markers_overlap (content : text) (a b : nat) :
  first_occurrence start_marker content a ->
  first_occurrence end_marker content b ->
  b < a ->
  occurs end_marker (start_part content)
  /\ occurs start_marker (end_part content)
  /\ length content
     <= length (start_part content) + length (end_part content)
  /\ forall file_path w,
       files w file_path = Some content ->
       snd (split_svg file_path w)
       = Ret (Some (minify_content (start_part content)),
              Some (minify_content (end_part content)),
              Some (minify_content content)).
Proof.
  intros Fa Fb Lt.
  pose proof (proj2 (find_first _ _ _) Fa) as Ea.
  pose proof (proj2 (find_first _ _ _) Fb) as Eb.
  pose proof (markers_apart_rev (proj1 Fa) (proj1 Fb) Lt) as L.
  rewrite (@start_part_found content a Ea), (@end_part_found content b Eb).
  destruct (proj1 Fa) as (x & r & E1 & La).
  destruct (proj1 Fb) as (y & r2 & E2 & Lb).
  assert (Ln : a + length start_marker <= length content).
  { rewrite E1, !length_app. lia. }
  split; [|split; [|split]].
  - exists y, (firstn (a - (b + length end_marker)) r2).
    replace (firstn a content)
      with (firstn a ((y ++ end_marker) ++ r2))
      by (rewrite <- app_assoc, <- E2; reflexivity).
    rewrite firstn_app, firstn_all2 by (rewrite length_app; lia).
    rewrite length_app, Lb, <- app_assoc. reflexivity.
  - exists (skipn (b + length end_marker) x), r.
    replace (skipn (b + length end_marker) content)
      with (skipn (b + length end_marker) (x ++ start_marker ++ r))
      by (rewrite <- E1; reflexivity).
    rewrite skipn_app.
    replace (b + length end_marker - length x) with 0 by lia.
    reflexivity.
  - rewrite length_firstn, length_skipn. lia.
  - intros p w Hf.
    rewrite (@split_svg_found p w content Hf
               (occurs_at_occurs (proj1 Fa)) (occurs_at_occurs (proj1 Fb))).
    rewrite (@start_part_found content a Ea), (@end_part_found content b Eb).
    reflexivity.
Qed.

Lemma reversed_markers_overlap_witness :
  occurs end_marker (start_part (end_marker ++ start_marker))
  /\ occurs start_marker (end_part (end_marker ++ start_marker)).
Proof.
  destruct (@reversed_markers_overlap (end_marker ++ start_marker) 28 0)
    as (A & B & _).
  - apply find_first. reflexivity.
  - apply find_first. reflexivity.
  - lia.
  - split; assumption.
Defined.

(** ** Every run of [main] *)


Lemma main_no_file (fs : path -> option text) :
  fs input_file = None ->
  run fs = (World fs [Output (FileNotFound input_file)], Ret tt).
Proof.
  intros Hf. unfold run, main, bind, exists_file. simpl.
  rewrite Hf. reflexivity.
Qed.

Lemma main_found (fs : path -> option text) (content : text) :
  fs input_file = Some content ->
  occurs start_marker content -> occurs end_marker content ->
  run fs
  = (World
       (update
          (update
             (update fs start_file (minify_content (start_part content)))
             end_file (minify_content (end_part content)))
          minified_file (minify_content content))
       [Output (ProcessingFile input_file);
        Output (OriginalSize (Py.len content));
        Output SplitParts;
        Output (StartPartLength (Py.len (start_part content)));
        Output (EndPartLength (Py.len (end_part content)));
        Output MinifyingParts;
        Output (MinifiedFullSize (Py.len (minify_content content)));
        Output (Reduction (Py.len (minify_content content))
                  (Py.len content));
        FileWrite start_file (minify_content (start_part content));
        FileWrite end_file (minify_content (end_part content));
        Output FilesCreated;
        Output (StartFile start_file);
        Output (EndFile end_file);
        FileWrite minified_file (minify_content content);
        Output (MinifiedFile minified_file)],
     Ret tt).
Proof.
  intros Hf Hs He. unfold run, main, bind, exists_file, try_except. simpl.
  rewrite Hf. simpl.
  rewrite (@split_svg_found input_file (World fs []) content Hf Hs He).
  reflexivity.
Qed.

(** The three ways a run can go. *)
Lemma run_cases (fs : path -> option text) :
  (fs input_file = None
   /\ run fs = (World fs [Output (FileNotFound input_file)], Ret tt))
  \/ (exists content,
        fs input_file = Some content
        /\ ~ (occurs start_marker content /\ occurs end_marker content)
        /\ run fs
           = (World fs [Output (ProcessingFile input_file);
                        Output (OriginalSize (Py.len content));
                        Output MarkersNotFound],
              Ret tt))
  \/ (exists content,
        fs input_file = Some content
        /\ occurs start_marker content /\ occurs end_marker content
        /\ files (fst (run fs))
           = update
               (update
                  (update fs start_file
                     (minify_content (start_part content)))
                  end_file (minify_content (end_part content)))
               minified_file (minify_content content)
        /\ writes (trace (fst (run fs)))
           = [(start_file, minify_content (start_part content));
              (end_file, minify_content (end_part content));
              (minified_file, minify_content content)]
        /\ ~ In (Output ErrorProcessing) (trace (fst (run fs)))
        /\ snd (run fs) = Ret tt).
Proof.
  destruct (fs input_file) as [content|] eqn:Hf.
  - destruct ((start_pos content =? -1)%Z || (end_pos content =? -1)%Z) eqn:T.
    + right. left. exists content.
      assert (Hn : ~ (occurs start_marker content
                      /\ occurs end_marker content)).
      { intros H. apply markers_test in H. congruence. }
      split; [reflexivity|]. split; [exact Hn|].
      apply (main_missing fs Hf Hn).
    + right. right. exists content. apply markers_test in T.
      destruct T as [Hs He].
      rewrite (main_found fs Hf Hs He). simpl.
      repeat (split; [first [reflexivity | assumption]|]).
      split; [|reflexivity].
      intros H. repeat (destruct H as [H | H]; [discriminate H|]). exact H.
  - left. split; [reflexivity|]. apply main_no_file, Hf.
Qed.

(** X9: without the input file the run prints that it is not found and
    does nothing else: nothing is written and the files are as they were. *)
Theorem missing_input_file (fs : path -> option text) :
  fs input_file = None ->
  trace (fst (run fs)) = [Output (FileNotFound input_file)]
  /\ files (fst (run fs)) = fs
  /\ snd (run fs) = Ret tt.
Proof.
  intros Hf. rewrite (main_no_file fs Hf). simpl. auto.
Qed.

Lemma missing_input_file_witness :
  trace (fst (run (fun _ => None))) = [Output (FileNotFound input_file)].
Proof.
  apply (@missing_input_file (fun _ => None)). reflexivity.
Defined.

(** X10: with both markers in the input file, the run writes three files
    and no other, in this order: the minified prefix to the start file, the
    minified suffix to the end file, the minified document to the minified
    file; afterwards each of them holds that text. *)
Theorem successful_run (fs : path -> option text) (content : text) :
  fs input_file = Some content ->
  occurs start_marker content -> occurs end_marker content ->
  writes (trace (fst (run fs)))
  = [(start_file, minify_content (start_part content));
     (end_file, minify_content (end_part content));
     (minified_file, minify_content content)]
  /\ files (fst (run fs)) start_file
     = Some (minify_content (start_part content))
  /\ files (fst (run fs)) end_file
     = Some (minify_content (end_part content))
  /\ files (fst (run fs)) minified_file = Some (minify_content content)
  /\ snd (run fs) = Ret tt.
Proof.
  intros Hf Hs He. rewrite (main_found fs Hf Hs He). simpl.
  repeat split; reflexivity.
Qed.

Lemma successful_run_witness :
  only_input example_doc input_file = Some example_doc
  /\ files (fst (run (only_input example_doc))) minified_file
     = Some (minify_content example_doc).
Proof.
  split; [reflexivity|].
  apply (@successful_run (only_input example_doc) example_doc).
  - reflexivity.
  - exact example_has_start.
  - exact example_has_end.
Defined.

(** X11: no run raises or reports an exception, whatever the files: the
    division by the size of the document is never a division by zero.  A
    run writes either nothing or the three output files. *)
Theorem run_never_raises (fs : path -> option text) :
  snd (run fs) = Ret tt
  /\ ~ In (Output ErrorProcessing) (trace (fst (run fs)))
  /\ (writes (trace (fst (run fs))) = []
      \/ map fst (writes (trace (fst (run fs))))
         = [start_file; end_file; minified_file]).
Proof.
  destruct (run_cases fs)
    as [[_ E] | [(c & _ & _ & E) | (c & _ & _ & _ & _ & W & N & R)]].
  - rewrite E. simpl. split; [reflexivity|]. split; [|left; reflexivity].
    intros [H | []]. discriminate H.
  - rewrite E. simpl. split; [reflexivity|]. split; [|left; reflexivity].
    intros H. repeat (destruct H as [H | H]; [discriminate H|]). exact H.
  - split; [exact R|]. split; [exact N|]. right. rewrite W. reflexivity.
Qed.

Lemma update_other (fs : path -> option text) (p q : path) (data : text) :
  q <> p -> update fs p data q = fs q.
Proof.
  intros N. unfold update. apply String.eqb_neq in N. rewrite N.
  reflexivity.
Qed.

(** X12: a run changes no file but the three output files; the input file
    among the others is left as it is. *)
Theorem run_touches_only_outputs (fs : path -> option text) (p : path) :
  p <> start_file -> p <> end_file -> p <> minified_file ->
  files (fst (run fs)) p = fs p.
Proof.
  intros N1 N2 N3.
  destruct (run_cases fs)
    as [[_ E] | [(c & _ & _ & E) | (c & _ & _ & _ & F & _)]].
  - rewrite E. reflexivity.
  - rewrite E. reflexivity.
  - rewrite F, !update_other by assumption. reflexivity.
Qed.

Lemma run_touches_only_outputs_witness :
  files (fst (run (only_input example_doc))) input_file = Some example_doc.
Proof.
  apply (@run_touches_only_outputs (only_input example_doc) input_file);
    discriminate.
Defined.

(** X13: running the script again on the files it left changes nothing:
    the second run writes what the first wrote and leaves every file with
    the content it had. *)
Theorem run_twice (fs : path -> option text) :
  let fs' := files (fst (run fs)) in
  writes (trace (fst (run fs'))) = writes (trace (fst (run fs)))
  /\ forall p, files (fst (run fs')) p = fs' p.
Proof.
  cbv zeta.
  destruct (run_cases fs)
    as [[Hf E] | [(c & Hf & Hn & E) | (c & Hf & Hs & He & F & W & _)]].
  - rewrite E. simpl. rewrite E. simpl. auto.
  - rewrite E. simpl. rewrite E. simpl. auto.
  - assert (Hin : files (fst (run fs)) input_file = Some c).
    { rewrite F, !update_other by discriminate. exact Hf. }
    rewrite (main_found _ Hin Hs He). simpl. rewrite W.
    split; [reflexivity|].
    intros p. rewrite F. unfold update.
    destruct (String.eqb p minified_file);
      destruct (String.eqb p end_file);
      destruct (String.eqb p start_file); reflexivity.
Qed.


(** ** Which lines are dropped *)

Lemma minify_line_html (line : text) :
  html_comment (Py.strip line) -> minify_line line = None.
Proof.
  intros H. apply html_comment_test in H. unfold minify_line.
  destruct (text_eqb (Py.strip line) []); [reflexivity|].
  rewrite H. reflexivity.
Qed.

Lemma minify_line_slashes (line : text) :
  has_prefix (lit "//") (Py.strip line) -> minify_line line = None.
Proof.
  intros H. apply startswith_spec in H. unfold minify_line.
  destruct (text_eqb (Py.strip line) []); [reflexivity|].
  destruct (_ && _); [reflexivity|].
  rewrite H. reflexivity.
Qed.

(** X15: a line is dropped in exactly three cases: it is blank, its
    trimmed form is one HTML comment, or its trimmed form starts with [//].
    Cutting a trailing comment never empties a line, so that the second
    test for an empty line never drops one. *)
Theorem dropped_lines (line : text) :
  minify_line line = None
  <-> blank line = true \/ html_comment (Py.strip line)
      \/ has_prefix (lit "//") (Py.strip line).
Proof.
  split.
  - intros E.
    destruct (blank line) eqn:B; [left; reflexivity|].
    destruct (Py.startswith (Py.strip line) (lit "<!--")
              && Py.endswith (Py.strip line) (lit "-->")) eqn:H;
      [right; left; apply html_comment_test, H|].
    destruct (Py.startswith (Py.strip line) (lit "//")) eqn:S;
      [right; right; apply startswith_spec, S|].
    exfalso.
    assert (Hne : Py.strip line <> []).
    { intros E0. apply strip_blank in E0. congruence. }
    assert (Hh : ~ html_comment (Py.strip line)).
    { intros X. apply html_comment_test in X. congruence. }
    assert (Hp : ~ has_prefix (lit "//") (Py.strip line)).
    { intros X. apply startswith_spec in X. congruence. }
    destruct (comment_pos_cases (Py.strip line)) as [[_ N] | (i & _ & F)].
    + rewrite (@minify_line_keep line Hne Hh Hp N) in E. discriminate E.
    + rewrite (@minify_line_cut_kept line i Hne Hh Hp F) in E.
      discriminate E.
  - intros [B | [H | S]].
    + apply minify_line_blank, B.
    + apply minify_line_html, H.
    + apply minify_line_slashes, S.
Qed.
